(** * Skills extractor: a shallow embedding of [skills_extractor.py] and of
    the message post-processing of [api_server.py], with the properties of
    the extraction, consolidation and review-workbook generation.

    Python [str] values are modelled as [string]: sequences of characters
    whose code points lie below 256.  Classification of characters
    ([isspace], [lower]) follows Python's tables on that range. *)

From Stdlib Require Import String Ascii List ZArith Lia.
From stdpp Require Import gmap strings list fin_maps pretty sorting.

Local Open Scope string_scope.
Local Open Scope list_scope.

(** ** Python text primitives *)

Module Text.

Definition comma : ascii := ","%char.
Definition newline : ascii := ascii_of_nat 10.
Definition carriage_return : ascii := ascii_of_nat 13.
Definition backslash : ascii := ascii_of_nat 92.

(** The one-character strings the source writes as ["\n"], [","],
    and the two-character ones ["\\n"], ["\r\n"], ["\n\n"]. *)
Definition NL : string := String newline "".
Definition COMMA : string := String comma "".
Definition BACKSLASH_N : string := String backslash "n".
Definition CRLF : string := String carriage_return NL.
Definition NLNL : string := String newline NL.

(** [c.isspace()] for a code point below 256: TAB, LF, VT, FF, CR,
    the separators FS, GS, RS, US, the space, NEL and NBSP. *)
Definition isspace (c : ascii) : bool :=
  let n := N_of_ascii c in
  ((9 <=? n) && (n <=? 13) || (28 <=? n) && (n <=? 32)
   || (n =? 133) || (n =? 160))%N.

(** [c.lower()] for a code point below 256: A-Z and the Latin-1
    capitals (all of 192..222 but the multiplication sign 215) move up
    by 32; every other character is unchanged. *)
Definition lower_char (c : ascii) : ascii :=
  let n := N_of_ascii c in
  if ((65 <=? n) && (n <=? 90)
      || (192 <=? n) && (n <=? 222) && negb (n =? 215))%N
  then ascii_of_N (n + 32) else c.

(** [s.lower()] *)
Fixpoint lower (s : string) : string :=
  match s with
  | "" => ""
  | String c s' => String (lower_char c) (lower s')
  end.

(** [s.lstrip()], [s.rstrip()], [s.strip()] *)
Fixpoint lstrip (s : string) : string :=
  match s with
  | "" => ""
  | String c s' => if isspace c then lstrip s' else s
  end.

Fixpoint rstrip (s : string) : string :=
  match s with
  | "" => ""
  | String c s' =>
      match rstrip s' with
      | "" => if isspace c then "" else String c ""
      | r => String c r
      end
  end.

Definition strip (s : string) : string := rstrip (lstrip s).

(** Every character is whitespace (this holds of the empty string). *)
Fixpoint all_space (s : string) : bool :=
  match s with
  | "" => true
  | String c s' => isspace c && all_space s'
  end.

(** [s.replace(old, new)] for a non-empty [old], as at every call in
    the source: occurrences are found left to right and do not
    overlap.  [skip] counts the characters of a match still to be
    consumed. *)
Fixpoint replace_from (old new : string) (skip : nat) (s : string) : string :=
  match s with
  | "" => ""
  | String c s' =>
      match skip with
      | S k => replace_from old new k s'
      | O =>
          if String.prefix old s
          then new +:+ replace_from old new (String.length old - 1) s'
          else String c (replace_from old new 0 s')
      end
  end.

Definition replace (old new s : string) : string := replace_from old new 0 s.

(** [s.split(sep)] for a non-empty [sep]: the pieces between the
    occurrences of [sep], found left to right; always at least one
    piece. *)
Fixpoint split_from (sep : string) (skip : nat) (s : string) : list string :=
  match s with
  | "" => [""]
  | String c s' =>
      match skip with
      | S k => split_from sep k s'
      | O =>
          if String.prefix sep s
          then "" :: split_from sep (String.length sep - 1) s'
          else match split_from sep 0 s' with
               | p :: ps => String c p :: ps
               | [] => [String c ""]
               end
      end
  end.

Definition split (sep s : string) : list string := split_from sep 0 s.

(** [sep.join(pieces)] *)
Fixpoint join (sep : string) (pieces : list string) : string :=
  match pieces with
  | [] => ""
  | [p] => p
  | p :: ps => p +:+ sep +:+ join sep ps
  end.

(** Truth value of a [str]: non-empty. *)
Definition truthy (s : string) : bool :=
  match s with "" => false | _ => true end.

(** Substring test, [needle in s] for a non-empty needle. *)
Fixpoint contains (needle s : string) : bool :=
  String.prefix needle s ||
  match s with
  | "" => false
  | String _ s' => contains needle s'
  end.

End Text.

(** ** Cell values and tokenization *)

(** A non-missing cell value as the reader hands it over: text, an
    integer, a boolean, or any other object (a float, a timestamp), kept
    with the text [str()] yields for it. *)
Inductive cell :=
| CStr (s : string)
| CInt (n : Z)
| CBool (b : bool)
| COther (shown : string).

(** [str(val)] *)
Definition str (val : cell) : string :=
  match val with
  | CStr s => s
  | CInt n => pretty n
  | CBool true => "True"
  | CBool false => "False"
  | COther shown => shown
  end.

(** [flatten_values]: the two nested loops, appending to [flattened]. *)
Definition flatten_values (values : list cell) : list string :=
  fold_left
    (fun flattened val =>
       let val := match val with CStr s => s | _ => str val end in
       fold_left
         (fun flattened part =>
            let part := Text.strip part in
            if Text.truthy part then flattened ++ [part] else flattened)
         (Text.split Text.COMMA (Text.replace Text.NL Text.COMMA val))
         flattened)
    values [].

(** The tokenization as the specification words it: per value, coerce to
    text, turn newlines into commas, split on commas, trim each piece,
    drop the empty pieces; the surviving pieces of all values in order. *)
Definition tokenize_spec (values : list cell) : list string :=
  concat
    (map (fun val =>
            filter (fun piece => piece <> "")
              (map Text.strip
                 (Text.split Text.COMMA
                    (Text.replace Text.NL Text.COMMA (str val)))))
         values).

(** ** The reader's view of a workbook (pandas) *)

(** A column of a parsed sheet: its label (taken by the reader from the
    sheet's first row) and its cells, [None] for a missing one. *)
Record Series := { label : string; values : list (option cell) }.

(** A parsed sheet: its columns, left to right. *)
Definition DataFrame := list Series.

(** [series.dropna().tolist()] *)
Definition dropna (col : Series) : list cell := omap id (values col).

(** What [pd.read_excel] returns: one table for a sheet name, a
    dictionary of tables, keyed by sheet name, for [sheet_name=None]. *)
Inductive table :=
| Frame (df : DataFrame)
| SheetDict (d : list (string * DataFrame)).

(** ** Paths, exceptions and the file store *)

(** A POSIX path, as [pathlib] parses it: its parts, the first of which
    is the root ("/" or "//") when the path is absolute. *)
Abbreviation Path := (list string).

Definition is_root (part : string) : bool := String.prefix "/" part.

(** [path.name]: the final part, empty when the path has no part but
    the root. *)
Definition path_name (p : Path) : string :=
  match p with
  | [] => ""
  | [part] => if is_root part then "" else part
  | _ => default "" (last p)
  end.

(** [name.rfind(c)] *)
Fixpoint rfind (c : ascii) (s : string) : option nat :=
  match s with
  | "" => None
  | String a s' =>
      match rfind c s' with
      | Some i => Some (S i)
      | None => if decide (a = c) then Some 0 else None
      end
  end.

(** [path.stem]: the name up to its last dot, when that dot is neither
    the first nor the last character. *)
Definition path_stem (p : Path) : string :=
  let name := path_name p in
  match rfind "."%char name with
  | Some i =>
      if decide (0 < i < String.length name - 1)
      then substring 0 i name else name
  | None => name
  end.

Inductive exn :=
| FileNotFoundError (src : Path)
    (* raise FileNotFoundError(f"Input file not found: {src}") *)
| SystemExit_input_not_found (excel_path : Path)
    (* parser.error(f"Input file not found: {excel_path}"), exit status 2 *)
| WorksheetNotFound (sheet_name : string)
    (* the reader's ValueError: Worksheet named '...' not found *)
| UnreadableWorkbook
    (* the reader cannot parse the file as a workbook *)
| AttributeError_columns
    (* 'dict' object has no attribute 'columns' *)
| IndexError_columns
    (* df.columns[0]: index 0 is out of bounds for an empty column index *)
| ValueError_empty_name (p : Path)
    (* with_name on a path that has an empty name *)
| IllegalCharacterError
    (* the writer refuses a cell text that holds a control character *)
| OSError_save (output_path : Path).
    (* wb.save cannot open the destination for writing: a missing
       directory, a directory at the path, no permission *)

Inductive result (X : Type) :=
| Ok (x : X)
| Raise (e : exn).
Arguments Ok {X} x.
Arguments Raise {X} e.

Global Instance result_ret : MRet result := fun _ x => Ok x.
Global Instance result_bind : MBind result :=
  fun _ _ f m => match m with Ok x => f x | Raise e => Raise e end.

(** [path.with_name(name)] *)
Definition with_name (p : Path) (name : string) : result Path :=
  if Text.truthy (path_name p) then Ok (removelast p ++ [name])
  else Raise (ValueError_empty_name p).

(** [df.columns] and [df.columns[0]]; a dictionary has no columns. *)
Definition columns (df : table) : result (list Series) :=
  match df with
  | Frame cols => Ok cols
  | SheetDict _ => Raise AttributeError_columns
  end.

Definition first_column (cols : list Series) : result Series :=
  match cols with
  | col :: _ => Ok col
  | [] => Raise IndexError_columns
  end.

(** [determine_linkedin_skills] *)
Definition determine_linkedin_skills (df : table) : result (gset string) :=
  cols ← columns df;
  first_col ← first_column cols;
  let values := dropna first_col in
  mret (list_to_set (flatten_values values)).

(** [build_share_message] *)
Definition build_share_message (client_name sender_name : string) : string :=
  "Hi " +:+ client_name +:+ "," +:+ Text.NLNL
  +:+ "I've compiled a list of possible job titles and their skills for you."
  +:+ " Your current LinkedIn skills are already marked."
  +:+ " Please review the list and mark 'Yes' in the second column for any"
  +:+ " additional skills you have." +:+ Text.NLNL
  +:+ "Thanks," +:+ Text.NL
  +:+ sender_name.

(** ** The writer's workbook (openpyxl) *)

Inductive column_letter := A | B.

Global Instance column_letter_eq_dec : EqDecision column_letter.
Proof. solve_decision. Defined.

Global Instance column_letter_countable : Countable column_letter.
Proof.
  refine (inj_countable' (fun c => match c with A => false | B => true end)
                         (fun b => if b then B else A) _).
  intros []; reflexivity.
Defined.

Record TableStyleInfo := {
  style_name : string;
  showFirstColumn : bool;
  showLastColumn : bool;
  showRowStripes : bool;
  showColumnStripes : bool
}.

Record Table := {
  displayName : string;
  ref : string;
  tableStyleInfo : option TableStyleInfo
}.

(** A worksheet: its cells by (row, column), rows counted from 1. *)
Record Worksheet := {
  title : string;
  cells : gmap (nat * column_letter) string;
  column_width : gmap column_letter Z;
  freeze_panes : option string;
  tables : list Table
}.

(** [Workbook()] holds one active sheet, titled "Sheet" and empty. *)
Record Workbook := { active : Worksheet }.

Definition new_Workbook : Workbook :=
  {| active := {| title := "Sheet"; cells := ∅; column_width := ∅;
                  freeze_panes := None; tables := [] |} |}.

Definition set_title (t : string) (ws : Worksheet) : Worksheet :=
  {| title := t; cells := cells ws; column_width := column_width ws;
     freeze_panes := freeze_panes ws; tables := tables ws |}.

(** The cell at (row, column) given the text [v]. *)
Definition put_cell (row : nat) (col : column_letter) (v : string)
    (ws : Worksheet) : Worksheet :=
  {| title := title ws; cells := <[(row, col) := v]> (cells ws);
     column_width := column_width ws;
     freeze_panes := freeze_panes ws; tables := tables ws |}.

(** [value[:n]] *)
Fixpoint take (n : N) (s : string) : string :=
  match s with
  | "" => ""
  | String c s' => if (n =? 0)%N then "" else String c (take (N.pred n) s')
  end.

(** The characters the writer refuses in a cell: the control characters
    0 to 8, 11, 12 and 14 to 31. *)
Definition illegal_character (c : ascii) : bool :=
  let n := N_of_ascii c in
  ((n <=? 8) || (11 <=? n) && (n <=? 12) || (14 <=? n) && (n <=? 31))%N.

Fixpoint has_illegal_character (s : string) : bool :=
  match s with
  | "" => false
  | String c s' => illegal_character c || has_illegal_character s'
  end.

(** The writer's check of a text value: it is cut to its first 32767
    characters, and refused if a control character is left in it. *)
Definition check_string (value : string) : result string :=
  let value := take 32767 value in
  if has_illegal_character value then Raise IllegalCharacterError
  else Ok value.

(** [ws[f"{col}{row}"] = v] *)
Definition set_cell (row : nat) (col : column_letter) (v : string)
    (ws : Worksheet) : result Worksheet :=
  v ← check_string v;
  mret (put_cell row col v ws).

(** A loop whose body may raise. *)
Fixpoint fold_result {X S : Type} (body : S -> X -> result S) (l : list X)
    (s : S) : result S :=
  match l with
  | [] => Ok s
  | x :: l' => s' ← body s x; fold_result body l' s'
  end.

Definition set_width (col : column_letter) (w : Z) (ws : Worksheet) : Worksheet :=
  {| title := title ws; cells := cells ws;
     column_width := <[col := w]> (column_width ws);
     freeze_panes := freeze_panes ws; tables := tables ws |}.

Definition set_freeze_panes (at_cell : string) (ws : Worksheet) : Worksheet :=
  {| title := title ws; cells := cells ws; column_width := column_width ws;
     freeze_panes := Some at_cell; tables := tables ws |}.

Definition add_table (t : Table) (ws : Worksheet) : Worksheet :=
  {| title := title ws; cells := cells ws; column_width := column_width ws;
     freeze_panes := freeze_panes ws; tables := tables ws ++ [t] |}.

(** [ws.max_row]: the largest row holding a cell, 1 for an empty sheet. *)
Definition max_row (ws : Worksheet) : nat :=
  max_list (1 :: map (fun kv => fst (fst kv)) (map_to_list (cells ws))).

(** The text of a cell address and of a range, as [f"A{idx}"] writes it. *)
Definition letter (col : column_letter) : string :=
  match col with A => "A" | B => "B" end.

Definition coordinate (row : nat) (col : column_letter) : string :=
  letter col +:+ pretty row.

Definition range_ref (row1 : nat) (col1 : column_letter)
    (row2 : nat) (col2 : column_letter) : string :=
  coordinate row1 col1 +:+ ":" +:+ coordinate row2 col2.

(** [enumerate(l, start)] *)
Definition enumerate {X : Type} (l : list X) (start : nat) : list (nat * X) :=
  zip (seq start (length l)) l.

(** The workbook [create_review_workbook] builds, up to [wb.save]; a
    cell assignment the writer refuses ends it. *)
Definition review_sheet (skills : list string) (linkedin_skills : gset string)
    (table_style_name : string) (show_row_stripes show_column_stripes : bool)
    : result Workbook :=
  let wb := new_Workbook in
  let ws := active wb in
  let ws := set_title "Skills Review" ws in
  ws ← set_cell 1 A "Skill" ws;
  ws ← set_cell 1 B "Have skill? (Mark X or YES)" ws;
  ws ←
    fold_result
      (fun ws '(idx, skill) =>
         ws ← set_cell idx A skill ws;
         if decide (skill ∈ linkedin_skills)
         then set_cell idx B "Yes" ws else mret ws)
      (enumerate skills 2) ws;
  let ws := set_width A 45 ws in
  let ws := set_width B 30 ws in
  let ws := set_freeze_panes "A2" ws in
  let end_row := length skills + 1 in
  let table_ref := "A1:B" +:+ pretty end_row in
  let table := {| displayName := "SkillsTable"; ref := table_ref;
                  tableStyleInfo := None |} in
  let style := {| style_name := table_style_name;
                  showFirstColumn := false; showLastColumn := false;
                  showRowStripes := show_row_stripes;
                  showColumnStripes := show_column_stripes |} in
  let table := {| displayName := displayName table; ref := ref table;
                  tableStyleInfo := Some style |} in
  let ws := add_table table ws in
  mret {| active := ws |}.

(** ** Sorting and sets *)

(** [sorted(l, key=key)]: Python's sort is stable, and a stable sort has
    one result; it is computed here by insertion, each element going
    behind the elements whose key is not larger. *)
Fixpoint insert_by (key : string -> string) (x : string) (l : list string)
    : list string :=
  match l with
  | [] => [x]
  | y :: l' =>
      if String.ltb (key x) (key y) then x :: l
      else y :: insert_by key x l'
  end.

Definition sorted (l : list string) (key : string -> string) : list string :=
  fold_left (fun acc x => insert_by key x acc) l [].

(** Iterating over [set(l)] yields the distinct elements of [l], in an
    order the language leaves open. *)
Record SetOrder := {
  set_iter : list string -> list string;
  set_iter_perm : forall l, set_iter l ≡ₚ remove_dups l
}.

(** One such order: that of [remove_dups]. *)
Definition plain_order : SetOrder :=
  {| set_iter := remove_dups; set_iter_perm := fun l => reflexivity _ |}.

(** ** Message post-processing of the service endpoint ([extract]) *)

Definition formatted_message (raw_message : string) : string :=
  Text.strip
    (Text.replace Text.CRLF Text.NL
       (Text.replace Text.BACKSLASH_N Text.NL raw_message)).

Definition html_message (formatted_message : string) : string :=
  "<p>"
  +:+ Text.replace Text.NL "<br>"
        (Text.replace Text.NLNL "</p><p>" formatted_message)
  +:+ "</p>".

(** [html.escape(s)]: the five characters with a meaning in markup. *)
Fixpoint html_escape (s : string) : string :=
  match s with
  | "" => ""
  | String c s' =>
      (if decide (c = "&"%char) then "&amp;"
       else if decide (c = "<"%char) then "&lt;"
       else if decide (c = ">"%char) then "&gt;"
       else if decide (c = ascii_of_nat 34) then "&quot;"
       else if decide (c = "'"%char) then "&#x27;"
       else String c "") +:+ html_escape s'
  end.

(** The rendering the specification words: the message HTML-escaped, its
    blank-line breaks turned into paragraph tags and its single newlines
    into line breaks. *)
Definition html_escaped_rendering (message : string) : string :=
  "<p>"
  +:+ Text.join "</p><p>"
        (map (fun paragraph => Text.join "<br>" (Text.split Text.NL paragraph))
             (Text.split Text.NLNL (html_escape message)))
  +:+ "</p>".

(** ** The pipeline over a file store *)

Section Pipeline.

(** The files of the store, with the two capabilities the libraries
    provide: parsing a file as a workbook (sheet names with their
    tables, in workbook order; [None] when the file is no workbook)
    and the file a saved workbook becomes. *)
Context {file : Type}.
Variable parse_workbook : file -> option (list (string * DataFrame)).
Variable saved : Workbook -> file.

(** Whether the system lets a file be created or replaced at a path:
    its directory exists, the path is no directory, writing is
    permitted.  The runs modelled here do not change it. *)
Variable writable : Path -> bool.

Variable order : SetOrder.

(** Computations that read and write the store and may raise. *)
Definition M (X : Type) : Type :=
  gmap Path file -> result X * gmap Path file.

Global Instance M_ret : MRet M := fun _ x fs => (Ok x, fs).
Global Instance M_bind : MBind M :=
  fun _ _ f m fs =>
    match m fs with
    | (Ok x, fs') => f x fs'
    | (Raise e, fs') => (Raise e, fs')
    end.

Definition raise {X : Type} (e : exn) : M X := fun fs => (Raise e, fs).
Definition lift {X : Type} (r : result X) : M X := fun fs => (r, fs).

Fixpoint for_each {X S : Type} (body : S -> X -> M S) (l : list X) (s : S)
    : M S :=
  match l with
  | [] => mret s
  | x :: l' => s' ← body s x; for_each body l' s'
  end.

(** [path.exists()] *)
Definition path_exists (p : Path) : M bool :=
  fun fs => (Ok (bool_decide (is_Some (fs !! p))), fs).

(** [pd.ExcelFile(path)]: the parsed workbook. *)
Definition ExcelFile (p : Path) : M (list (string * DataFrame)) :=
  fun fs =>
    match fs !! p with
    | None => (Raise (FileNotFoundError p), fs)
    | Some f =>
        match parse_workbook f with
        | Some book => (Ok book, fs)
        | None => (Raise UnreadableWorkbook, fs)
        end
    end.

Definition sheet_names (xls : list (string * DataFrame)) : list string :=
  map fst xls.

Fixpoint sheet_by_name (name : string) (book : list (string * DataFrame))
    : option DataFrame :=
  match book with
  | [] => None
  | (n, df) :: book' =>
      if decide (n = name) then Some df else sheet_by_name name book'
  end.

(** [pd.read_excel(path, sheet_name=...)] *)
Definition read_excel (p : Path) (sheet_name : option string) : M table :=
  book ← ExcelFile p;
  match sheet_name with
  | None => mret (SheetDict book)
  | Some name =>
      match sheet_by_name name book with
      | Some df => mret (Frame df)
      | None => raise (WorksheetNotFound name)
      end
  end.

(** [extract_unique_skills].  [df[col]] is the column itself: the
    reader gives the columns of a table distinct labels. *)
Definition extract_unique_skills (excel_path : Path) (sheet : option string)
    : M (list string) :=
  xls ← ExcelFile excel_path;
  let sheet_names :=
    match sheet with
    | Some name => if Text.truthy name then [name] else sheet_names xls
    | None => sheet_names xls
    end in
  all_skills ←
    for_each
      (fun all_skills sheet_name =>
         df ← read_excel excel_path (Some sheet_name);
         cols ← lift (columns df);
         mret (fold_left
                 (fun all_skills col =>
                    let col_values := dropna col in
                    all_skills ++ flatten_values col_values)
                 cols all_skills))
      sheet_names [];
  let unique_skills := sorted (set_iter order all_skills) Text.lower in
  mret unique_skills.

(** [wb.save(output_path)]: the file is put at [output_path], over
    whatever was there, when the destination can be opened. *)
Definition save (wb : Workbook) (output_path : Path) : M unit :=
  fun fs =>
    if writable output_path then (Ok (), <[output_path := saved wb]> fs)
    else (Raise (OSError_save output_path), fs).

(** [create_review_workbook]: build the sheet, then [wb.save]. *)
Definition create_review_workbook (skills : list string)
    (linkedin_skills : gset string) (output_path : Path)
    (table_style_name : string) (show_row_stripes show_column_stripes : bool)
    : M unit :=
  wb ← lift (review_sheet skills linkedin_skills table_style_name
               show_row_stripes show_column_stripes);
  save wb output_path.

Record outcome := { output_file : Path; message : string }.

(** [process_skills] *)
Definition process_skills (excel_path : Path) (sheet : option string)
    (client sender : string) : M outcome :=
  let src := excel_path in
  present ← path_exists src;
  if negb present then raise (FileNotFoundError src) else
  output_path ← lift (with_name src (path_stem src +:+ "_review.xlsx"));
  df ← read_excel src sheet;
  linkedin_skills ← lift (determine_linkedin_skills df);
  unique_skills ← extract_unique_skills src sheet;
  create_review_workbook unique_skills linkedin_skills output_path
    "TableStyleMedium9" true false;;
  let message := build_share_message client sender in
  mret {| output_file := output_path; message := message |}.

(** The parsed command line. *)
Record Namespace := {
  arg_excel_path : Path;
  arg_sheet : option string;
  arg_output : option Path;
  arg_client : string;
  arg_sender : string
}.

(** [main], from the parsed arguments on; it returns what it prints:
    the output path and the share message. *)
Definition main (args : Namespace) : M (Path * string) :=
  let excel_path := arg_excel_path args in
  present ← path_exists excel_path;
  if negb present then raise (SystemExit_input_not_found excel_path) else
  output_path ←
    match arg_output args with
    | None => lift (with_name excel_path
                      (path_stem excel_path +:+ "_review.xlsx"))
    | Some output => mret output
    end;
  df ← read_excel excel_path (arg_sheet args);
  linkedin_skills ← lift (determine_linkedin_skills df);
  unique_skills ← extract_unique_skills excel_path (arg_sheet args);
  create_review_workbook unique_skills linkedin_skills output_path
    "TableStyleMedium9" true false;;
  let message := build_share_message (arg_client args) (arg_sender args) in
  mret (output_path, message).

End Pipeline.

(** ** Vocabulary of the statements *)

(** [a] does not come after [b] in the order of their keys. *)
Definition key_le (key : string -> string) (a b : string) : Prop :=
  String.leb (key a) (key b) = true.

(** All tokens of a parsed sheet, column by column. *)
Definition frame_tokens (df : DataFrame) : list string :=
  concat (map (fun col => flatten_values (dropna col)) df).

(** The sheet names [extract_unique_skills] goes through. *)
Definition selected_names (sheet : option string)
    (book : list (string * DataFrame)) : list string :=
  match sheet with
  | Some name => if Text.truthy name then [name] else sheet_names book
  | None => sheet_names book
  end.

(** All tokens of the selected sheets, in reading order. *)
Definition all_tokens (sheet : option string)
    (book : list (string * DataFrame)) : list string :=
  concat (map (fun name => frame_tokens (default [] (sheet_by_name name book)))
              (selected_names sheet book)).

(** The path [main] writes to. *)
Definition main_output (args : Namespace) : Path :=
  match arg_output args with
  | None => removelast (arg_excel_path args)
              ++ [path_stem (arg_excel_path args) +:+ "_review.xlsx"]
  | Some output => output
  end.

(** The text of a cell that was given [v]: its first 32767 characters. *)
Definition cut (v : string) : string := take 32767 v.

(** The writer accepts [v] as the text of a cell. *)
Definition cell_text (v : string) : bool := negb (has_illegal_character (cut v)).

(** The loop of [create_review_workbook] over the numbered skills, when
    every assignment is accepted. *)
Definition marking_loop (linkedin_skills : gset string)
    (rows : list (nat * string)) (ws : Worksheet) : Worksheet :=
  fold_left
    (fun ws '(idx, skill) =>
       let ws := put_cell idx A (cut skill) ws in
       if decide (skill ∈ linkedin_skills)
       then put_cell idx B "Yes" ws else ws)
    rows ws.

(** The sheet when the loop starts: retitled, with the two header cells. *)
Definition header_sheet : Worksheet :=
  put_cell 1 B "Have skill? (Mark X or YES)"
    (put_cell 1 A "Skill" (set_title "Skills Review" (active new_Workbook))).

(** The workbook [review_sheet] returns when every assignment is
    accepted. *)
Definition built_sheet (skills : list string) (linkedin_skills : gset string)
    (table_style_name : string) (show_row_stripes show_column_stripes : bool)
    : Workbook :=
  {| active :=
       add_table
         {| displayName := "SkillsTable";
            ref := "A1:B" +:+ pretty (length skills + 1);
            tableStyleInfo :=
              Some {| style_name := table_style_name;
                      showFirstColumn := false; showLastColumn := false;
                      showRowStripes := show_row_stripes;
                      showColumnStripes := show_column_stripes |} |}
         (set_freeze_panes "A2"
            (set_width B 30
               (set_width A 45
                  (marking_loop linkedin_skills (enumerate skills 2)
                     header_sheet)))) |}.

(** How a run ends once the sheet is built or refused: an error of the
    build is passed on; a built workbook is saved at [out], and [v]
    returned, when the destination can be opened. *)
Definition write_outcome {file X : Type} (saved : Workbook -> file)
    (writable : Path -> bool) (built : result Workbook) (out : Path) (v : X)
    (fs : gmap Path file) : result X * gmap Path file :=
  match built with
  | Raise e => (Raise e, fs)
  | Ok wb =>
      if writable out then (Ok v, <[out := saved wb]> fs)
      else (Raise (OSError_save out), fs)
  end.

(** The rendering of a message, without escaping: the paragraphs between
    blank-line breaks in paragraph tags, the lines of a paragraph
    separated by line breaks. *)
Definition html_rendering (message : string) : string :=
  "<p>"
  +:+ Text.join "</p><p>"
        (map (fun paragraph => Text.join "<br>" (Text.split Text.NL paragraph))
             (Text.split Text.NLNL message))
  +:+ "</p>".

(** The character [c] occurs in [s]. *)
Fixpoint occurs (c : ascii) (s : string) : bool :=
  match s with
  | "" => false
  | String x s' => bool_decide (x = c) || occurs c s'
  end.

(** A token as [flatten_values] emits them: not empty, trimmed at both
    ends, free of the two delimiters. *)
Definition is_token (t : string) : Prop :=
  t <> "" /\ Text.strip t = t /\
  occurs Text.comma t = false /\ occurs Text.newline t = false.

(** ** A concrete file store *)

Module Sample.

(** A file is a workbook some other program wrote, given by its parsed
    sheets, a workbook this program saved, or something else. *)
Inductive file :=
| Xlsx (book : list (string * DataFrame))
| Review (wb : Workbook)
| Junk.

(** The parsed sheets of a saved review workbook: its one sheet, the
    first row as labels, the rows below as text cells. *)
Definition read_back (wb : Workbook) : list (string * DataFrame) :=
  let ws := active wb in
  let column c :=
    {| label := default "" (cells ws !! (1, c));
       values := map (fun r => CStr <$> cells ws !! (r, c))
                     (seq 2 (max_row ws - 1)) |} in
  [(title ws, [column A; column B])].

Definition parse_workbook (f : file) : option (list (string * DataFrame)) :=
  match f with
  | Xlsx book => Some book
  | Review wb => Some (read_back wb)
  | Junk => None
  end.

Definition saved (wb : Workbook) : file := Review wb.

(** Only the working directory exists: a file can be written at a path
    of one part. *)
Definition writable (p : Path) : bool :=
  match p with
  | [_] => true
  | _ => false
  end.

(** Scenario A: one column holding "Excel, Word", "excel" and
    "PowerPoint\nOutlook". *)
Definition scenario_A : gmap Path file :=
  {[ ["skills.xlsx"] :=
       Xlsx [("Sheet1",
              [ {| label := "Skills";
                   values := [Some (CStr "Excel, Word");
                              Some (CStr "excel");
                              Some (CStr ("PowerPoint" +:+ Text.NL +:+ "Outlook"))]
                |} ])] ]}.

(** Scenario B: "Python, SQL" in the first column, "Python, Java" in
    another. *)
Definition jobs_B : Series :=
  {| label := "Jobs"; values := [Some (CStr "Python, Java"); None] |}.

Definition frame_B : DataFrame :=
  [ {| label := "LinkedIn"; values := [Some (CStr "Python, SQL")] |}; jobs_B ].

Definition scenario_B : gmap Path file :=
  {[ ["client.xlsx"] := Xlsx [("October", frame_B)] ]}.

(** Scenario E: a workbook whose one sheet has no cell at all; the
    reader parses such a sheet to a table without columns. *)
Definition scenario_E : gmap Path file :=
  {[ ["empty.xlsx"] := Xlsx [("Sheet1", [])] ]}.

(** A workbook of two sheets: that of Scenario B and one more. *)
Definition two_sheets : gmap Path file :=
  {[ ["client.xlsx"] :=
       Xlsx [("October", frame_B);
             ("Notes", [ {| label := "Other";
                            values := [Some (CStr "Rust; Go, SQL")] |} ])] ]}.

End Sample.

(** ** Sample evaluations *)

Example strip_ex : Text.strip "  a b  " = "a b".
Proof. reflexivity. Qed.

Example split_ex : Text.split "," ",a,,b," = [""; "a"; ""; "b"; ""].
Proof. reflexivity. Qed.

Example replace_ex : Text.replace "aa" "b" "aaaxaa" = "baxb".
Proof. reflexivity. Qed.

Example lower_ex : Text.lower "PowerPoint" = "powerpoint".
Proof. reflexivity. Qed.

Example flatten_values_ex :
  flatten_values [CStr "Excel, Word"; CInt (-7); CStr (" " +:+ Text.NL +:+ ",x")]
  = ["Excel"; "Word"; "-7"; "x"].
Proof. vm_compute. reflexivity. Qed.

Example review_sheet_ex :
  exists wb,
    review_sheet ["Java"; "Python"] {[ "Python" ]} "TableStyleMedium9" true false
    = Ok wb /\
    let ws := active wb in
    cells ws !! (2, A) = Some "Java" /\ cells ws !! (2, B) = None /\
    cells ws !! (3, A) = Some "Python" /\ cells ws !! (3, B) = Some "Yes" /\
    max_row ws = 3 /\ map ref (tables ws) = ["A1:B3"].
Proof. eexists. split; [vm_compute; reflexivity|]. vm_compute. repeat split. Qed.

Example review_sheet_control_character :
  review_sheet ["Java"; String (ascii_of_nat 7) "x"] ∅ "TableStyleMedium9"
    true false
  = Raise IllegalCharacterError.
Proof. vm_compute. reflexivity. Qed.

Example path_name_root : path_name ["/"] = "" /\ path_name ["/"; "a.xlsx"] = "a.xlsx".
Proof. split; reflexivity. Qed.

Example with_name_ex :
  with_name ["data"; "client.skills.xlsx"]
            (path_stem ["data"; "client.skills.xlsx"] +:+ "_review.xlsx")
  = Ok ["data"; "client.skills_review.xlsx"].
Proof. reflexivity. Qed.

Example sorted_stable :
  sorted ["b"; "B"; "a"; "A"] Text.lower = ["a"; "A"; "b"; "B"].
Proof. reflexivity. Qed.

Example scenario_A_plain_order :
  extract_unique_skills Sample.parse_workbook plain_order ["skills.xlsx"] None
    Sample.scenario_A
  = (Ok ["Excel"; "excel"; "Outlook"; "PowerPoint"; "Word"], Sample.scenario_A).
Proof. vm_compute. reflexivity. Qed.

Example scenario_B_review :
  let '(r, fs) :=
    process_skills Sample.parse_workbook Sample.saved Sample.writable plain_order
      ["client.xlsx"] (Some "October") "Morgan" "Pat" Sample.scenario_B in
  output_file <$> (match r with Ok x => Some x | Raise _ => None end)
    = Some ["client_review.xlsx"] /\
  Sample.parse_workbook <$> fs !! ["client_review.xlsx"]
    = Some (Some
        [("Skills Review",
          [ {| label := "Skill";
               values := [Some (CStr "Java"); Some (CStr "Python");
                          Some (CStr "SQL")] |};
            {| label := "Have skill? (Mark X or YES)";
               values := [None; Some (CStr "Yes"); Some (CStr "Yes")] |} ])]).
Proof. vm_compute. split; reflexivity. Qed.

Example html_message_ex :
  html_message (formatted_message (build_share_message "Morgan" "Pat"))
  = "<p>Hi Morgan,</p><p>I've compiled a list of possible job titles and their skills for you. Your current LinkedIn skills are already marked. Please review the list and mark 'Yes' in the second column for any additional skills you have.</p><p>Thanks,<br>Pat</p>".
Proof. vm_compute. reflexivity. Qed.

(** ** Facts about the text primitives *)

Module TextFacts.
Import Text.

Lemma truthy_spec (s : string) : truthy s = true <-> s <> "".
Proof. destruct s; simpl; split; congruence. Qed.

Lemma lstrip_head (s : string) (c : ascii) (r : string) :
  lstrip s = String c r -> isspace c = false.
Proof.
  induction s as [|a s IH]; simpl; [discriminate|].
  destruct (isspace a) eqn:Ha; [exact IH|].
  intros [= <- _]. exact Ha.
Qed.

Lemma rstrip_head (c : ascii) (r : string) (c' : ascii) (r' : string) :
  rstrip (String c r) = String c' r' -> c' = c.
Proof.
  simpl. destruct (rstrip r); [destruct (isspace c)|]; congruence.
Qed.

Lemma rstrip_empty_all_space (s : string) :
  rstrip s = "" -> all_space s = true.
Proof.
  induction s as [|a s IH]; simpl; [reflexivity|].
  destruct (rstrip s); [|discriminate].
  destruct (isspace a); [intros _; simpl; auto | discriminate].
Qed.

(** A trimmed piece that is not empty starts with a character that is
    not whitespace. *)
Lemma strip_starts (s : string) :
  strip s <> "" -> exists c r, strip s = String c r /\ isspace c = false.
Proof.
  unfold strip. intros Hne.
  destruct (lstrip s) as [|c r] eqn:Hl; [simpl in Hne; congruence|].
  destruct (rstrip (String c r)) as [|c' r'] eqn:Hr; [congruence|].
  exists c', r'. split; [reflexivity|].
  apply rstrip_head in Hr. subst c'. eapply lstrip_head; eassumption.
Qed.

Lemma strip_not_all_space (s : string) :
  strip s <> "" -> all_space (strip s) = false.
Proof.
  intros H. destruct (strip_starts s H) as (c & r & -> & Hc).
  simpl. rewrite Hc. reflexivity.
Qed.

Lemma split_from_cons (sep : string) (k : nat) (s : string) :
  exists p ps, split_from sep k s = p :: ps.
Proof.
  revert k. induction s as [|a s IH]; intros k; cbn [split_from].
  { do 2 eexists; reflexivity. }
  destruct k; [|apply IH].
  destruct (String.prefix sep (String a s)).
  { do 2 eexists; reflexivity. }
  destruct (IH 0) as (p & ps & ->). do 2 eexists; reflexivity.
Qed.

Lemma join_cons (sep p q : string) (ps : list string) :
  join sep (p :: q :: ps) = p +:+ sep +:+ join sep (q :: ps).
Proof. reflexivity. Qed.

Lemma join_String (sep : string) (c : ascii) (p : string) (ps : list string) :
  join sep (String c p :: ps) = String c (join sep (p :: ps)).
Proof. destruct ps; reflexivity. Qed.

(** [s.replace(old, new) == new.join(s.split(old))] *)
Lemma replace_from_join_split (old new : string) (s : string) (k : nat) :
  replace_from old new k s = join new (split_from old k s).
Proof.
  revert k.
  induction s as [|a s IH]; intros k; cbn [replace_from split_from];
    [reflexivity|].
  destruct k; [|apply IH].
  destruct (String.prefix old (String a s)).
  - rewrite IH. destruct (split_from_cons old (String.length old - 1) s)
      as (p & ps & ->). reflexivity.
  - rewrite IH. destruct (split_from_cons old 0 s) as (p & ps & ->).
    rewrite join_String. reflexivity.
Qed.

Lemma replace_join_split (old new s : string) :
  replace old new s = join new (split old s).
Proof. apply replace_from_join_split. Qed.

End TextFacts.

(** ** Tokenization *)

Lemma flatten_inner_loop (parts : list string) (flattened : list string) :
  fold_left
    (fun flattened part =>
       let part := Text.strip part in
       if Text.truthy part then flattened ++ [part] else flattened)
    parts flattened
  = flattened ++ filter (fun piece => piece <> "") (map Text.strip parts).
Proof.
  revert flattened. induction parts as [|p parts IH]; intros flattened; simpl.
  - rewrite app_nil_r. reflexivity.
  - rewrite IH. destruct (Text.strip p) as [|c r] eqn:Hp; simpl.
    + rewrite filter_cons_False by (intros H; apply H; reflexivity).
      reflexivity.
    + rewrite filter_cons_True by discriminate.
      rewrite <- app_assoc. reflexivity.
Qed.

Lemma flatten_outer_loop (values : list cell) (flattened : list string) :
  fold_left
    (fun flattened val =>
       let val := match val with CStr s => s | _ => str val end in
       fold_left
         (fun flattened part =>
            let part := Text.strip part in
            if Text.truthy part then flattened ++ [part] else flattened)
         (Text.split Text.COMMA (Text.replace Text.NL Text.COMMA val))
         flattened)
    values flattened
  = flattened ++ tokenize_spec values.
Proof.
  revert flattened.
  induction values as [|v values IH]; intros flattened; simpl.
  - unfold tokenize_spec. simpl. rewrite app_nil_r. reflexivity.
  - rewrite IH, flatten_inner_loop. unfold tokenize_spec. simpl.
    rewrite <- app_assoc. destruct v; reflexivity.
Qed.

Lemma flatten_values_spec (values : list cell) :
  flatten_values values = tokenize_spec values.
Proof. unfold flatten_values. rewrite flatten_outer_loop. reflexivity. Qed.

Lemma flatten_values_app (xs ys : list cell) :
  flatten_values (xs ++ ys) = flatten_values xs ++ flatten_values ys.
Proof.
  rewrite !flatten_values_spec. unfold tokenize_spec.
  rewrite map_app, concat_app. reflexivity.
Qed.

Lemma flatten_values_cons (x : cell) (ys : list cell) :
  flatten_values (x :: ys) = flatten_values [x] ++ flatten_values ys.
Proof. apply (flatten_values_app [x] ys). Qed.

Lemma tokenize_spec_tokens (values : list cell) (t : string) :
  t ∈ tokenize_spec values -> t <> "" /\ Text.all_space t = false.
Proof.
  unfold tokenize_spec. intros H.
  apply list_elem_of_In, in_concat in H. destruct H as (l & Hl & Ht).
  apply in_map_iff in Hl. destruct Hl as (v & <- & _).
  apply list_elem_of_In, list_elem_of_filter in Ht. destruct Ht as [Hne Ht].
  apply list_elem_of_fmap in Ht. destruct Ht as (piece & -> & _).
  split; [exact Hne|]. apply TextFacts.strip_not_all_space. exact Hne.
Qed.

(** C4: [flatten_values] yields, for every sequence of cell values, the
    pieces the specification describes -- each value coerced to text,
    newlines turned into commas, the text split on commas, each piece
    trimmed, empty pieces dropped, the survivors in left-to-right order --
    and none of its tokens is empty or made of whitespace only. *)
Theorem C4_flatten_values_tokens (values : list cell) :
  flatten_values values = tokenize_spec values /\
  Forall (fun t => t <> "" /\ Text.all_space t = false) (flatten_values values).
Proof.
  split; [apply flatten_values_spec|].
  apply Forall_forall. intros t Ht. apply (tokenize_spec_tokens values).
  rewrite <- flatten_values_spec. exact Ht.
Qed.

(** ** Sorting by a key *)

Lemma ltb_leb (s1 s2 : string) : String.ltb s1 s2 = true -> String.leb s1 s2 = true.
Proof.
  unfold String.ltb, String.leb.
  destruct (String.compare s1 s2); simpl; intros H; done.
Qed.

Lemma ltb_false_leb (s1 s2 : string) :
  String.ltb s1 s2 = false -> String.leb s2 s1 = true.
Proof.
  unfold String.ltb, String.leb. rewrite (String.compare_antisym s1 s2).
  destruct (String.compare s2 s1); simpl; intros H; done.
Qed.

Lemma leb_trans (s1 s2 s3 : string) :
  String.leb s1 s2 = true -> String.leb s2 s3 = true -> String.leb s1 s3 = true.
Proof.
  intros H12 H23. apply Is_true_true.
  apply Is_true_true in H12, H23.
  exact (transitivity (R := String.le) H12 H23).
Qed.

Lemma insert_by_perm (key : string -> string) (x : string) (l : list string) :
  insert_by key x l ≡ₚ x :: l.
Proof.
  induction l as [|y l IH]; simpl; [reflexivity|].
  destruct (String.ltb (key x) (key y)); [reflexivity|].
  rewrite IH. apply Permutation_swap.
Qed.

Lemma insert_by_sorted (key : string -> string) (x : string) (l : list string) :
  StronglySorted (key_le key) l -> StronglySorted (key_le key) (insert_by key x l).
Proof.
  induction 1 as [|y l Hl IH Hy]; simpl.
  - repeat constructor.
  - destruct (String.ltb (key x) (key y)) eqn:Hxy.
    + constructor; [constructor; assumption|].
      constructor; [apply ltb_leb; exact Hxy|].
      eapply Forall_impl; [exact Hy|]. intros z Hz.
      eapply leb_trans; [apply ltb_leb; exact Hxy | exact Hz].
    + constructor; [exact IH|].
      rewrite (insert_by_perm key x l). constructor; [|exact Hy].
      apply ltb_false_leb. exact Hxy.
Qed.

Lemma sorted_loop_perm (key : string -> string) (l acc : list string) :
  fold_left (fun acc x => insert_by key x acc) l acc ≡ₚ acc ++ l.
Proof.
  revert acc. induction l as [|x l IH]; intros acc; simpl.
  - rewrite app_nil_r. reflexivity.
  - rewrite IH, insert_by_perm. apply Permutation_middle.
Qed.

Lemma sorted_loop_sorted (key : string -> string) (l acc : list string) :
  StronglySorted (key_le key) acc ->
  StronglySorted (key_le key) (fold_left (fun acc x => insert_by key x acc) l acc).
Proof.
  revert acc. induction l as [|x l IH]; intros acc Hacc; simpl; [exact Hacc|].
  apply IH, insert_by_sorted, Hacc.
Qed.

Lemma sorted_perm (l : list string) (key : string -> string) : sorted l key ≡ₚ l.
Proof. apply (sorted_loop_perm key l []). Qed.

Lemma sorted_sorted (l : list string) (key : string -> string) :
  StronglySorted (key_le key) (sorted l key).
Proof. apply sorted_loop_sorted. constructor. Qed.

(** [sorted(set(l), key=...)]: the distinct elements of [l], each once,
    in key order, whatever order the set is iterated in. *)
Lemma sorted_set_perm (order : SetOrder) (l : list string) (key : string -> string) :
  sorted (set_iter order l) key ≡ₚ remove_dups l.
Proof. rewrite sorted_perm. apply set_iter_perm. Qed.

Lemma sorted_set_elem (order : SetOrder) (l : list string)
    (key : string -> string) (t : string) :
  t ∈ sorted (set_iter order l) key <-> t ∈ l.
Proof. rewrite sorted_set_perm. apply elem_of_remove_dups. Qed.

Lemma sorted_set_NoDup (order : SetOrder) (l : list string) (key : string -> string) :
  NoDup (sorted (set_iter order l) key).
Proof. rewrite sorted_set_perm. apply NoDup_remove_dups. Qed.

(** ** Running the pipeline *)

Lemma column_loop (cols : list Series) (all_skills : list string) :
  fold_left
    (fun all_skills col =>
       let col_values := dropna col in
       all_skills ++ flatten_values col_values)
    cols all_skills
  = all_skills ++ frame_tokens cols.
Proof.
  revert all_skills. induction cols as [|col cols IH]; intros acc; simpl.
  - unfold frame_tokens. simpl. rewrite app_nil_r. reflexivity.
  - rewrite IH. unfold frame_tokens. simpl. rewrite <- app_assoc. reflexivity.
Qed.

Lemma elem_of_flatten_values (values : list cell) (t : string) :
  t ∈ flatten_values values <-> exists v, v ∈ values /\ t ∈ flatten_values [v].
Proof.
  induction values as [|x values IH].
  - split; [intros H; inversion H | intros (v & Hv & _); inversion Hv].
  - rewrite flatten_values_cons, elem_of_app, IH. split.
    + intros [H | (v & Hv & Ht)].
      * exists x. split; [left | exact H].
      * exists v. split; [right; exact Hv | exact Ht].
    + intros (v & Hv & Ht). apply elem_of_cons in Hv. destruct Hv as [-> | Hv].
      * left. exact Ht.
      * right. exists v. split; assumption.
Qed.

Lemma elem_of_dropna (col : Series) (v : cell) :
  v ∈ dropna col <-> Some v ∈ values col.
Proof.
  unfold dropna. rewrite list_elem_of_omap. split.
  - intros (o & Ho & Hid). simpl in Hid. subst o. exact Ho.
  - intros H. exists (Some v). split; [exact H | reflexivity].
Qed.

Lemma elem_of_frame_tokens (df : DataFrame) (t : string) :
  t ∈ frame_tokens df <->
  exists col v, col ∈ df /\ Some v ∈ values col /\ t ∈ flatten_values [v].
Proof.
  unfold frame_tokens. rewrite list_elem_of_In, in_concat. split.
  - intros (l & Hl & Ht). apply in_map_iff in Hl. destruct Hl as (col & <- & Hcol).
    apply list_elem_of_In, elem_of_flatten_values in Ht.
    destruct Ht as (v & Hv & Ht). exists col, v.
    split; [apply list_elem_of_In; exact Hcol|].
    split; [apply elem_of_dropna; exact Hv | exact Ht].
  - intros (col & v & Hcol & Hv & Ht).
    exists (flatten_values (dropna col)). split.
    + apply in_map_iff. exists col. split; [reflexivity|].
      apply list_elem_of_In. exact Hcol.
    + apply list_elem_of_In, elem_of_flatten_values. exists v.
      split; [apply elem_of_dropna; exact Hv | exact Ht].
Qed.

Section PipelineFacts.

Context {file : Type}.
Variable parse_workbook : file -> option (list (string * DataFrame)).
Variable saved : Workbook -> file.
Variable writable : Path -> bool.
Variable order : SetOrder.

Lemma bind_ok {X Y : Type} (m : M X) (f : X -> M Y)
    (fs fs' : gmap Path file) (x : X) :
  m fs = (Ok x, fs') -> (m ≫= f) fs = f x fs'.
Proof. intros H. unfold mbind, M_bind. rewrite H. reflexivity. Qed.

Lemma bind_raise {X Y : Type} (m : M X) (f : X -> M Y)
    (fs fs' : gmap Path file) (e : exn) :
  m fs = (Raise e, fs') -> (m ≫= f) fs = (Raise e, fs').
Proof. intros H. unfold mbind, M_bind. rewrite H. reflexivity. Qed.

Lemma path_exists_present (p : Path) (f : file) (fs : gmap Path file) :
  fs !! p = Some f -> path_exists p fs = (Ok true, fs).
Proof.
  intros H. unfold path_exists. rewrite bool_decide_eq_true_2; [reflexivity|].
  rewrite H. eexists; reflexivity.
Qed.

Lemma path_exists_absent (p : Path) (fs : gmap Path file) :
  fs !! p = None -> path_exists (file := file) p fs = (Ok false, fs).
Proof.
  intros H. unfold path_exists. rewrite bool_decide_eq_false_2; [reflexivity|].
  rewrite H. intros [x Hx]. discriminate.
Qed.

Lemma ExcelFile_ok (p : Path) (f : file) (book : list (string * DataFrame))
    (fs : gmap Path file) :
  fs !! p = Some f -> parse_workbook f = Some book ->
  ExcelFile parse_workbook p fs = (Ok book, fs).
Proof. intros Hf Hb. unfold ExcelFile. rewrite Hf, Hb. reflexivity. Qed.

Lemma read_excel_dict (p : Path) (f : file) (book : list (string * DataFrame))
    (fs : gmap Path file) :
  fs !! p = Some f -> parse_workbook f = Some book ->
  read_excel parse_workbook p None fs = (Ok (SheetDict book), fs).
Proof.
  intros Hf Hb. unfold read_excel.
  rewrite (bind_ok _ _ _ _ _ (ExcelFile_ok p f book fs Hf Hb)). reflexivity.
Qed.

Lemma read_excel_frame (p : Path) (f : file) (book : list (string * DataFrame))
    (fs : gmap Path file) (name : string) (df : DataFrame) :
  fs !! p = Some f -> parse_workbook f = Some book ->
  sheet_by_name name book = Some df ->
  read_excel parse_workbook p (Some name) fs = (Ok (Frame df), fs).
Proof.
  intros Hf Hb Hs. unfold read_excel.
  rewrite (bind_ok _ _ _ _ _ (ExcelFile_ok p f book fs Hf Hb)).
  rewrite Hs. reflexivity.
Qed.

Lemma read_excel_missing (p : Path) (f : file) (book : list (string * DataFrame))
    (fs : gmap Path file) (name : string) :
  fs !! p = Some f -> parse_workbook f = Some book ->
  sheet_by_name name book = None ->
  read_excel parse_workbook p (Some name) fs = (Raise (WorksheetNotFound name), fs).
Proof.
  intros Hf Hb Hs. unfold read_excel.
  rewrite (bind_ok _ _ _ _ _ (ExcelFile_ok p f book fs Hf Hb)).
  rewrite Hs. reflexivity.
Qed.

(** A loop whose body only appends, and leaves the store alone. *)
Lemma for_each_append {X : Type} (body : list string -> X -> M (list string))
    (g : X -> list string) (l : list X) (fs : gmap Path file) :
  (forall acc x, x ∈ l -> body acc x fs = (Ok (acc ++ g x), fs)) ->
  forall acc, for_each body l acc fs = (Ok (acc ++ concat (map g l)), fs).
Proof.
  induction l as [|x l IH]; intros Hbody acc; simpl.
  - rewrite app_nil_r. reflexivity.
  - rewrite (bind_ok _ _ _ _ _ (Hbody acc x (list_elem_of_here x l))).
    rewrite IH.
    + rewrite <- app_assoc. reflexivity.
    + intros acc' y Hy. apply Hbody. right. exact Hy.
Qed.

Lemma extract_unique_skills_ok (p : Path) (f : file)
    (book : list (string * DataFrame)) (fs : gmap Path file)
    (sheet : option string) :
  fs !! p = Some f -> parse_workbook f = Some book ->
  (forall name, name ∈ selected_names sheet book ->
                is_Some (sheet_by_name name book)) ->
  extract_unique_skills parse_workbook order p sheet fs
  = (Ok (sorted (set_iter order (all_tokens sheet book)) Text.lower), fs).
Proof.
  intros Hf Hb Hall. unfold extract_unique_skills.
  rewrite (bind_ok _ _ _ _ _ (ExcelFile_ok p f book fs Hf Hb)).
  fold (selected_names sheet book).
  erewrite bind_ok; [reflexivity|].
  rewrite (for_each_append _
             (fun name => frame_tokens (default [] (sheet_by_name name book)))).
  - reflexivity.
  - intros acc name Hname. destruct (Hall name Hname) as [df Hdf].
    rewrite (bind_ok _ _ _ _ _ (read_excel_frame p f book fs name df Hf Hb Hdf)).
    unfold lift. simpl. unfold mbind, M_bind, mret, M_ret.
    rewrite column_loop, Hdf. reflexivity.
Qed.

Lemma extract_unique_skills_missing (p : Path) (f : file)
    (book : list (string * DataFrame)) (fs : gmap Path file) (name : string) :
  fs !! p = Some f -> parse_workbook f = Some book ->
  name <> "" -> sheet_by_name name book = None ->
  extract_unique_skills parse_workbook order p (Some name) fs
  = (Raise (WorksheetNotFound name), fs).
Proof.
  intros Hf Hb Hne Hs. unfold extract_unique_skills.
  rewrite (bind_ok _ _ _ _ _ (ExcelFile_ok p f book fs Hf Hb)).
  apply TextFacts.truthy_spec in Hne. rewrite Hne.
  apply bind_raise. simpl.
  apply bind_raise, bind_raise.
  apply (read_excel_missing p f book fs name Hf Hb Hs).
Qed.

Lemma sheet_by_name_listed (book : list (string * DataFrame)) (name : string) :
  name ∈ sheet_names book -> is_Some (sheet_by_name name book).
Proof.
  induction book as [|[n df] book IH]; simpl; intros H.
  - inversion H.
  - destruct (decide (n = name)); [eexists; reflexivity|].
    apply IH. apply elem_of_cons in H. destruct H as [H | H]; [congruence | exact H].
Qed.

End PipelineFacts.

(** ** Outcomes of [process_skills] and [main] *)

Section Outcomes.

Context {file : Type}.
Variable parse_workbook : file -> option (list (string * DataFrame)).
Variable saved : Workbook -> file.
Variable writable : Path -> bool.
Variable order : SetOrder.

Ltac run H := rewrite (bind_ok _ _ _ _ _ H).

Lemma with_name_named (p : Path) (name : string) :
  path_name p <> "" -> with_name p name = Ok (removelast p ++ [name]).
Proof.
  intros H. unfold with_name. apply TextFacts.truthy_spec in H.
  rewrite H. reflexivity.
Qed.

(** Up to the first read, for a path that exists and has a name. *)
Lemma process_skills_reads (p : Path) (f : file) (fs : gmap Path file)
    (sheet : option string) (client sender : string) :
  fs !! p = Some f -> path_name p <> "" ->
  process_skills parse_workbook saved writable order p sheet client sender fs
  = (df ← read_excel parse_workbook p sheet;
     linkedin_skills ← lift (determine_linkedin_skills df);
     unique_skills ← extract_unique_skills parse_workbook order p sheet;
     create_review_workbook saved writable unique_skills linkedin_skills
       (removelast p ++ [path_stem p +:+ "_review.xlsx"])
       "TableStyleMedium9" true false;;
     mret {| output_file := removelast p ++ [path_stem p +:+ "_review.xlsx"];
             message := build_share_message client sender |}) fs.
Proof.
  intros Hf Hname. unfold process_skills.
  run (path_exists_present p f fs Hf). simpl.
  rewrite (with_name_named p _ Hname). reflexivity.
Qed.

Lemma main_reads (args : Namespace) (f : file) (fs : gmap Path file) :
  fs !! arg_excel_path args = Some f -> path_name (arg_excel_path args) <> "" ->
  main parse_workbook saved writable order args fs
  = (df ← read_excel parse_workbook (arg_excel_path args) (arg_sheet args);
     linkedin_skills ← lift (determine_linkedin_skills df);
     unique_skills ← extract_unique_skills parse_workbook order
                       (arg_excel_path args) (arg_sheet args);
     create_review_workbook saved writable unique_skills linkedin_skills
       (main_output args) "TableStyleMedium9" true false;;
     mret (main_output args,
           build_share_message (arg_client args) (arg_sender args))) fs.
Proof.
  intros Hf Hname. unfold main, main_output.
  run (path_exists_present _ f fs Hf). simpl.
  destruct (arg_output args) as [output|].
  - reflexivity.
  - rewrite (with_name_named _ _ Hname). reflexivity.
Qed.

(** C6: when the named sheet is absent from an existing workbook, both
    [process_skills] and the command line fail with the reader's
    sheet-not-found error, raised while the data is being read, and the
    store is left as it was: no output file is created. *)
Theorem C6_missing_sheet_fails (p : Path) (f : file)
    (book : list (string * DataFrame)) (fs : gmap Path file)
    (name client sender : string) (output : option Path) :
  fs !! p = Some f -> parse_workbook f = Some book -> path_name p <> "" ->
  sheet_by_name name book = None ->
  process_skills parse_workbook saved writable order p (Some name) client sender fs
    = (Raise (WorksheetNotFound name), fs) /\
  main parse_workbook saved writable order
       {| arg_excel_path := p; arg_sheet := Some name; arg_output := output;
          arg_client := client; arg_sender := sender |} fs
    = (Raise (WorksheetNotFound name), fs).
Proof.
  intros Hf Hb Hname Hs. split.
  - rewrite (process_skills_reads p f fs _ _ _ Hf Hname).
    apply bind_raise. apply (read_excel_missing _ p f book fs name Hf Hb Hs).
  - match goal with |- main _ _ _ _ ?a _ = _ =>
      rewrite (main_reads a f fs Hf Hname) end. simpl.
    apply bind_raise. apply (read_excel_missing _ p f book fs name Hf Hb Hs).
Qed.

(** C7: when the input path does not exist, [process_skills] raises
    its input-not-found error and the command line exits with its
    input-not-found message, before anything is read, and the store is
    left as it was: no output file is created. *)
Theorem C7_missing_input_fails (p : Path) (fs : gmap Path file)
    (sheet : option string) (client sender : string) (output : option Path) :
  fs !! p = None ->
  process_skills parse_workbook saved writable order p sheet client sender fs
    = (Raise (FileNotFoundError p), fs) /\
  main parse_workbook saved writable order
       {| arg_excel_path := p; arg_sheet := sheet; arg_output := output;
          arg_client := client; arg_sender := sender |} fs
    = (Raise (SystemExit_input_not_found p), fs).
Proof.
  intros Hf. split.
  - unfold process_skills. run (path_exists_absent p fs Hf). reflexivity.
  - unfold main. simpl. run (path_exists_absent p fs Hf). reflexivity.
Qed.

(** Without a sheet name the first read gives the dictionary, and the
    known-set extraction fails on it. *)
Lemma process_skills_dict (p : Path) (f : file)
    (book : list (string * DataFrame)) (fs : gmap Path file)
    (client sender : string) :
  fs !! p = Some f -> parse_workbook f = Some book -> path_name p <> "" ->
  process_skills parse_workbook saved writable order p None client sender fs
    = (Raise AttributeError_columns, fs).
Proof.
  intros Hf Hb Hname.
  rewrite (process_skills_reads p f fs _ _ _ Hf Hname).
  run (read_excel_dict _ p f book fs Hf Hb). reflexivity.
Qed.

(** C10: for every existing, readable workbook, [process_skills] and
    the command line without a sheet name fail before anything is
    written: the read yields the per-sheet dictionary, which has no
    columns for the known-set extraction to take the first of. *)
Theorem C10_no_sheet_name_fails (p : Path) (f : file)
    (book : list (string * DataFrame)) (fs : gmap Path file)
    (client sender : string) (output : option Path) :
  fs !! p = Some f -> parse_workbook f = Some book -> path_name p <> "" ->
  read_excel parse_workbook p None fs = (Ok (SheetDict book), fs) /\
  determine_linkedin_skills (SheetDict book) = Raise AttributeError_columns /\
  process_skills parse_workbook saved writable order p None client sender fs
    = (Raise AttributeError_columns, fs) /\
  main parse_workbook saved writable order
       {| arg_excel_path := p; arg_sheet := None; arg_output := output;
          arg_client := client; arg_sender := sender |} fs
    = (Raise AttributeError_columns, fs).
Proof.
  intros Hf Hb Hname.
  pose proof (read_excel_dict _ p f book fs Hf Hb) as Hread.
  split; [exact Hread|]. split; [reflexivity|]. split.
  - apply (process_skills_dict p f book fs client sender Hf Hb Hname).
  - match goal with |- main _ _ _ _ ?a _ = _ =>
      rewrite (main_reads a f fs Hf Hname) end. simpl.
    run Hread. reflexivity.
Qed.

(** A named sheet without columns: the known-set extraction fails. *)
Lemma process_skills_no_columns (p : Path) (f : file)
    (book : list (string * DataFrame)) (fs : gmap Path file)
    (name client sender : string) :
  fs !! p = Some f -> parse_workbook f = Some book -> path_name p <> "" ->
  sheet_by_name name book = Some [] ->
  process_skills parse_workbook saved writable order p (Some name) client sender fs
    = (Raise IndexError_columns, fs).
Proof.
  intros Hf Hb Hname Hs.
  rewrite (process_skills_reads p f fs _ _ _ Hf Hname).
  run (read_excel_frame _ p f book fs name [] Hf Hb Hs). reflexivity.
Qed.

Lemma create_then {X : Type} (skills : list string) (known : gset string)
    (out : Path) (table_style_name : string)
    (show_row_stripes show_column_stripes : bool) (v : X)
    (fs : gmap Path file) :
  (create_review_workbook saved writable skills known out table_style_name
     show_row_stripes show_column_stripes;;
   mret v) fs
  = write_outcome saved writable
      (review_sheet skills known table_style_name show_row_stripes
         show_column_stripes) out v fs.
Proof.
  unfold create_review_workbook, write_outcome, lift, save, mbind, M_bind,
    mret, M_ret.
  destruct (review_sheet skills known table_style_name show_row_stripes
              show_column_stripes); [|reflexivity].
  destruct (writable out); reflexivity.
Qed.

(** A named sheet with at least one column: the pipeline gets to build
    the review workbook of the consolidated list, marked with the
    tokens of the first column, and to save it. *)
Lemma process_skills_ok (p : Path) (f : file)
    (book : list (string * DataFrame)) (fs : gmap Path file)
    (name client sender : string) (col : Series) (cols : list Series) :
  fs !! p = Some f -> parse_workbook f = Some book -> path_name p <> "" ->
  sheet_by_name name book = Some (col :: cols) ->
  let out := removelast p ++ [path_stem p +:+ "_review.xlsx"] in
  process_skills parse_workbook saved writable order p (Some name) client sender fs
  = write_outcome saved writable
      (review_sheet
         (sorted (set_iter order (all_tokens (Some name) book)) Text.lower)
         (list_to_set (flatten_values (dropna col)))
         "TableStyleMedium9" true false)
      out
      {| output_file := out; message := build_share_message client sender |}
      fs.
Proof.
  intros Hf Hb Hname Hs out.
  rewrite (process_skills_reads p f fs _ _ _ Hf Hname).
  run (read_excel_frame _ p f book fs name _ Hf Hb Hs).
  assert (Hk : lift (determine_linkedin_skills (Frame (col :: cols))) fs
               = (Ok (list_to_set (flatten_values (dropna col))), fs))
    by reflexivity.
  run Hk. erewrite bind_ok; [apply create_then|].
  apply (extract_unique_skills_ok _ _ p f book fs (Some name) Hf Hb).
  intros n Hn. unfold selected_names in Hn.
  destruct (Text.truthy name).
  - apply list_elem_of_singleton in Hn. subst n. rewrite Hs. eexists; reflexivity.
  - apply sheet_by_name_listed. exact Hn.
Qed.

End Outcomes.

(** ** The review worksheet *)

Lemma take_short (n : N) (s : string) :
  (N.of_nat (String.length s) <= n)%N -> take n s = s.
Proof.
  revert n. induction s as [|c s IH]; intros n Hn; [reflexivity|].
  cbn [take]. cbn [String.length] in Hn.
  destruct (N.eqb_spec n 0) as [-> | Hne]; [lia|].
  rewrite IH by lia. reflexivity.
Qed.

Lemma set_cell_checked (row : nat) (col : column_letter) (v : string)
    (ws : Worksheet) :
  set_cell row col v ws
  = if cell_text v then Ok (put_cell row col (cut v) ws)
    else Raise IllegalCharacterError.
Proof.
  unfold set_cell, check_string, cell_text, cut.
  destruct (has_illegal_character (take 32767 v)); reflexivity.
Qed.

Lemma enumerate_cons {X : Type} (x : X) (l : list X) (start : nat) :
  enumerate (x :: l) start = (start, x) :: enumerate l (S start).
Proof. reflexivity. Qed.

Lemma marking_loop_cons (known : gset string) (row : nat * string)
    (rows : list (nat * string)) (ws : Worksheet) :
  marking_loop known (row :: rows) ws
  = marking_loop known rows (marking_loop known [row] ws).
Proof. reflexivity. Qed.

(** The loop with its checks is the loop without them, unless a token
    is refused. *)
Lemma checked_loop (known : gset string) (skills : list string) (start : nat)
    (ws : Worksheet) :
  fold_result
    (fun ws '(idx, skill) =>
       ws ← set_cell idx A skill ws;
       if decide (skill ∈ known) then set_cell idx B "Yes" ws else mret ws)
    (enumerate skills start) ws
  = if forallb cell_text skills
    then Ok (marking_loop known (enumerate skills start) ws)
    else Raise IllegalCharacterError.
Proof.
  revert start ws. induction skills as [|x skills IH]; intros start ws.
  - reflexivity.
  - rewrite enumerate_cons, marking_loop_cons. cbn [fold_result forallb].
    rewrite set_cell_checked. destruct (cell_text x); [|reflexivity].
    cbn [mbind result_bind andb].
    unfold marking_loop at 2. cbn [fold_left].
    destruct (decide (x ∈ known)).
    + rewrite set_cell_checked.
      change (cell_text "Yes") with true. change (cut "Yes") with "Yes".
      cbn [mbind result_bind]. apply IH.
    + cbn [mbind result_bind mret result_ret]. apply IH.
Qed.

Lemma review_sheet_built (skills : list string) (known : gset string)
    (table_style_name : string) (show_row_stripes show_column_stripes : bool) :
  review_sheet skills known table_style_name show_row_stripes
    show_column_stripes
  = if forallb cell_text skills
    then Ok (built_sheet skills known table_style_name show_row_stripes
               show_column_stripes)
    else Raise IllegalCharacterError.
Proof.
  unfold review_sheet. rewrite !set_cell_checked.
  change (cell_text "Skill") with true. change (cut "Skill") with "Skill".
  cbn [mbind result_bind]. rewrite set_cell_checked.
  change (cell_text "Have skill? (Mark X or YES)") with true.
  change (cut "Have skill? (Mark X or YES)")
    with "Have skill? (Mark X or YES)".
  cbn [mbind result_bind]. rewrite checked_loop.
  destruct (forallb cell_text skills); reflexivity.
Qed.

Lemma review_sheet_inv (skills : list string) (known : gset string)
    (table_style_name : string) (show_row_stripes show_column_stripes : bool)
    (wb : Workbook) :
  review_sheet skills known table_style_name show_row_stripes
    show_column_stripes = Ok wb ->
  forallb cell_text skills = true /\
  wb = built_sheet skills known table_style_name show_row_stripes
         show_column_stripes.
Proof.
  rewrite review_sheet_built.
  destruct (forallb cell_text skills); [|discriminate].
  intros [= <-]. split; reflexivity.
Qed.

(** What [create_review_workbook] does, case by case. *)
Lemma create_review_workbook_closed {file : Type} (saved : Workbook -> file)
    (writable : Path -> bool) (skills : list string) (known : gset string)
    (out : Path) (table_style_name : string)
    (show_row_stripes show_column_stripes : bool) (fs : gmap Path file) :
  create_review_workbook saved writable skills known out table_style_name
    show_row_stripes show_column_stripes fs
  = if forallb cell_text skills then
      if writable out
      then (Ok (), <[out := saved (built_sheet skills known table_style_name
                                     show_row_stripes show_column_stripes)]> fs)
      else (Raise (OSError_save out), fs)
    else (Raise IllegalCharacterError, fs).
Proof.
  unfold create_review_workbook, lift, save, mbind, M_bind.
  rewrite review_sheet_built.
  destruct (forallb cell_text skills); [|reflexivity].
  destruct (writable out); reflexivity.
Qed.

Lemma marking_step_other (known : gset string) (idx : nat) (skill : string)
    (ws : Worksheet) (r : nat) (c : column_letter) :
  r <> idx ->
  cells (marking_loop known [(idx, skill)] ws) !! (r, c) = cells ws !! (r, c).
Proof.
  intros Hr. unfold marking_loop. simpl.
  destruct (decide (skill ∈ known)); simpl;
    rewrite ?lookup_insert_ne by congruence; reflexivity.
Qed.

Lemma marking_step_A (known : gset string) (idx : nat) (skill : string)
    (ws : Worksheet) :
  cells (marking_loop known [(idx, skill)] ws) !! (idx, A) = Some (cut skill).
Proof.
  unfold marking_loop. cbn [fold_left].
  destruct (decide (skill ∈ known)); cbn [cells put_cell].
  - rewrite lookup_insert_ne by congruence. apply lookup_insert_eq.
  - apply lookup_insert_eq.
Qed.

Lemma marking_step_B (known : gset string) (idx : nat) (skill : string)
    (ws : Worksheet) :
  cells (marking_loop known [(idx, skill)] ws) !! (idx, B)
  = if decide (skill ∈ known) then Some "Yes" else cells ws !! (idx, B).
Proof.
  unfold marking_loop. cbn [fold_left].
  destruct (decide (skill ∈ known)); cbn [cells put_cell].
  - apply lookup_insert_eq.
  - apply lookup_insert_ne. congruence.
Qed.

(** Rows outside the numbered range keep their cells. *)
Lemma marking_loop_outside (known : gset string) (skills : list string)
    (start : nat) (ws : Worksheet) (r : nat) (c : column_letter) :
  r < start \/ start + length skills <= r ->
  cells (marking_loop known (enumerate skills start) ws) !! (r, c)
  = cells ws !! (r, c).
Proof.
  revert start ws. induction skills as [|x skills IH]; intros start ws Hr.
  - reflexivity.
  - rewrite enumerate_cons, marking_loop_cons, IH by (simpl in Hr; lia).
    apply marking_step_other. simpl in Hr. lia.
Qed.

(** The row of the [i]-th skill holds its text, and its mark. *)
Lemma marking_loop_row (known : gset string) (skills : list string)
    (start : nat) (ws : Worksheet) (i : nat) (skill : string) :
  skills !! i = Some skill ->
  cells (marking_loop known (enumerate skills start) ws) !! (start + i, A)
    = Some (cut skill) /\
  cells (marking_loop known (enumerate skills start) ws) !! (start + i, B)
    = if decide (skill ∈ known) then Some "Yes" else cells ws !! (start + i, B).
Proof.
  revert start ws i.
  induction skills as [|x skills IH]; intros start ws i Hi; [inversion Hi|].
  rewrite enumerate_cons, marking_loop_cons. destruct i as [|i]; simpl in Hi.
  - injection Hi as ->. rewrite Nat.add_0_r.
    rewrite !marking_loop_outside by lia.
    split; [apply marking_step_A | apply marking_step_B].
  - replace (start + S i) with (S start + i) by lia.
    destruct (IH (S start) (marking_loop known [(start, x)] ws) i Hi)
      as [HA HB].
    split; [exact HA|]. rewrite HB.
    rewrite marking_step_other by lia. reflexivity.
Qed.

Lemma header_sheet_cells (r : nat) (c : column_letter) :
  cells header_sheet !! (r, c)
  = if decide (r = 1)
    then Some (match c with
               | A => "Skill"
               | B => "Have skill? (Mark X or YES)"
               end)
    else None.
Proof.
  unfold header_sheet. simpl. destruct (decide (r = 1)) as [-> | Hr].
  - destruct c.
    + rewrite lookup_insert_ne by congruence. apply lookup_insert_eq.
    + apply lookup_insert_eq.
  - rewrite !lookup_insert_ne by congruence. apply lookup_empty.
Qed.

Lemma built_sheet_cells (skills : list string) (known : gset string)
    (table_style_name : string) (show_row_stripes show_column_stripes : bool) :
  cells (active (built_sheet skills known table_style_name
                   show_row_stripes show_column_stripes))
  = cells (marking_loop known (enumerate skills 2) header_sheet).
Proof. reflexivity. Qed.

(** Every cell of the built sheet. *)
Lemma built_sheet_lookup (skills : list string) (known : gset string)
    (table_style_name : string) (show_row_stripes show_column_stripes : bool)
    (r : nat) (c : column_letter) :
  cells (active (built_sheet skills known table_style_name
                   show_row_stripes show_column_stripes)) !! (r, c)
  = if decide (r = 1)
    then Some (match c with
               | A => "Skill"
               | B => "Have skill? (Mark X or YES)"
               end)
    else if decide (2 <= r)
    then match skills !! (r - 2), c with
         | Some skill, A => Some (cut skill)
         | Some skill, B => if decide (skill ∈ known) then Some "Yes" else None
         | None, _ => None
         end
    else None.
Proof.
  rewrite built_sheet_cells.
  destruct (decide (r = 1)) as [-> | Hr1].
  { rewrite marking_loop_outside by lia. rewrite header_sheet_cells.
    reflexivity. }
  destruct (decide (2 <= r)) as [Hr2 | Hr2].
  - destruct (skills !! (r - 2)) as [skill|] eqn:Hs.
    + destruct (marking_loop_row known skills 2 header_sheet (r - 2) skill Hs)
        as [HA HB].
      replace (2 + (r - 2)) with r in HA, HB by lia.
      destruct c; [exact HA|]. rewrite HB, header_sheet_cells.
      destruct (decide (r = 1)); [lia | reflexivity].
    + apply lookup_ge_None in Hs.
      rewrite marking_loop_outside by lia. rewrite header_sheet_cells.
      destruct (decide (r = 1)); [lia|]. destruct c; reflexivity.
  - rewrite marking_loop_outside by lia. rewrite header_sheet_cells.
    destruct (decide (r = 1)); [lia | reflexivity].
Qed.

Lemma marking_loop_tables (known : gset string) (rows : list (nat * string))
    (ws : Worksheet) :
  tables (marking_loop known rows ws) = tables ws.
Proof.
  revert ws. induction rows as [|[idx skill] rows IH]; intros ws; [reflexivity|].
  rewrite marking_loop_cons, IH. unfold marking_loop. simpl.
  destruct (decide (skill ∈ known)); reflexivity.
Qed.

Lemma built_sheet_tables (skills : list string) (known : gset string)
    (table_style_name : string) (show_row_stripes show_column_stripes : bool) :
  tables (active (built_sheet skills known table_style_name
                    show_row_stripes show_column_stripes))
  = [ {| displayName := "SkillsTable";
         ref := "A1:B" +:+ pretty (length skills + 1);
         tableStyleInfo :=
           Some {| style_name := table_style_name;
                   showFirstColumn := false; showLastColumn := false;
                   showRowStripes := show_row_stripes;
                   showColumnStripes := show_column_stripes |} |} ].
Proof.
  unfold built_sheet. cbn [active tables add_table].
  cbn [set_freeze_panes set_width tables].
  rewrite marking_loop_tables. reflexivity.
Qed.

Lemma max_list_bounded (n : nat) (ns : list nat) :
  Forall (fun x => x <= n) ns -> max_list ns <= n.
Proof. induction 1; simpl; lia. Qed.

Lemma max_row_spec (ws : Worksheet) (n : nat) (c : column_letter) :
  1 <= n -> is_Some (cells ws !! (n, c)) ->
  (forall r c', is_Some (cells ws !! (r, c')) -> r <= n) ->
  max_row ws = n.
Proof.
  intros Hn [v Hv] Hall. unfold max_row. apply Nat.le_antisymm.
  - apply max_list_bounded. constructor; [exact Hn|].
    apply Forall_forall. intros r Hr.
    apply list_elem_of_In, in_map_iff in Hr.
    destruct Hr as ([[r' c'] v'] & <- & Hin). simpl.
    apply list_elem_of_In, elem_of_map_to_list in Hin.
    apply (Hall r' c'). eexists; exact Hin.
  - apply max_list_elem_of_le. right.
    apply list_elem_of_In, in_map_iff. exists ((n, c), v).
    split; [reflexivity|].
    apply list_elem_of_In, elem_of_map_to_list. exact Hv.
Qed.

Lemma built_sheet_max_row (skills : list string) (known : gset string)
    (table_style_name : string) (show_row_stripes show_column_stripes : bool) :
  max_row (active (built_sheet skills known table_style_name
                     show_row_stripes show_column_stripes))
  = length skills + 1.
Proof.
  apply (max_row_spec _ _ A); [lia | |].
  - rewrite built_sheet_lookup.
    destruct (decide (length skills + 1 = 1)) as [|Hne]; [eexists; reflexivity|].
    destruct (decide (2 <= length skills + 1)); [|lia].
    destruct (lookup_lt_is_Some_2 skills (length skills + 1 - 2)) as [s Hs];
      [lia|].
    rewrite Hs. eexists; reflexivity.
  - intros r c' [v Hv]. rewrite built_sheet_lookup in Hv.
    destruct (decide (r = 1)); [lia|].
    destruct (decide (2 <= r)); [|discriminate].
    destruct (skills !! (r - 2)) eqn:Hs; [|discriminate].
    apply lookup_lt_Some in Hs. lia.
Qed.



(** C3: when [create_review_workbook] writes the review workbook, it
    has as many rows as there are tokens, plus the one header row:
    every row from 1 to that count holds a cell and no other row does;
    its one table, "SkillsTable", refers to the range from the header
    cell A1 to column B of the last row. *)
Theorem C3_row_count_and_table_ref {file : Type} (saved : Workbook -> file)
    (writable : Path -> bool)
    (skills : list string) (known : gset string) (out : Path)
    (table_style_name : string) (show_row_stripes show_column_stripes : bool)
    (fs fs' : gmap Path file) :
  create_review_workbook saved writable skills known out table_style_name
    show_row_stripes show_column_stripes fs = (Ok (), fs') ->
  exists wb,
    review_sheet skills known table_style_name show_row_stripes
      show_column_stripes = Ok wb /\
    fs' = <[out := saved wb]> fs /\
    let ws := active wb in
    max_row ws = length skills + 1 /\
    (forall r, is_Some (cells ws !! (r, A)) <-> 1 <= r <= length skills + 1) /\
    (forall r, is_Some (cells ws !! (r, B)) -> 1 <= r <= length skills + 1) /\
    is_Some (cells ws !! (1, B)) /\
    exists t, tables ws = [t] /\ displayName t = "SkillsTable" /\
              ref t = range_ref 1 A (max_row ws) B.
Proof.
  rewrite create_review_workbook_closed, review_sheet_built.
  destruct (forallb cell_text skills); [|discriminate].
  destruct (writable out); [|discriminate].
  intros [= <-]. eexists. split; [reflexivity|]. split; [reflexivity|].
  cbv zeta. split; [apply built_sheet_max_row|].
  split; [|split; [|split]].
  - intros r. rewrite built_sheet_lookup.
    destruct (decide (r = 1)) as [-> | Hr1].
    { split; [lia | intros _; eexists; reflexivity]. }
    destruct (decide (2 <= r)) as [Hr2 | Hr2].
    + destruct (skills !! (r - 2)) as [skill|] eqn:Hs.
      * apply lookup_lt_Some in Hs. split; [lia | intros _; eexists; reflexivity].
      * apply lookup_ge_None in Hs. split; [intros [v Hv]; discriminate | lia].
    + split; [intros [v Hv]; discriminate | lia].
  - intros r [v Hv]. rewrite built_sheet_lookup in Hv.
    destruct (decide (r = 1)); [lia|].
    destruct (decide (2 <= r)); [|discriminate].
    destruct (skills !! (r - 2)) eqn:Hs; [|discriminate].
    apply lookup_lt_Some in Hs. lia.
  - rewrite built_sheet_lookup. eexists; reflexivity.
  - rewrite built_sheet_max_row, built_sheet_tables.
    eexists. split; [reflexivity|]. split; reflexivity.
Qed.

(** ** The HTML rendering of the share message *)

Lemma append_assoc (s1 s2 s3 : string) :
  (s1 +:+ s2) +:+ s3 = s1 +:+ (s2 +:+ s3).
Proof.
  induction s1 as [|c s1 IH]; [reflexivity|].
  change (String c ((s1 +:+ s2) +:+ s3) = String c (s1 +:+ (s2 +:+ s3))).
  f_equal. exact IH.
Qed.

Lemma replace_char_cons (c : ascii) (new : string) (x : ascii) (s : string) :
  Text.replace (String c "") new (String x s)
  = (if decide (c = x) then new else String x "")
    +:+ Text.replace (String c "") new s.
Proof.
  unfold Text.replace. cbn [Text.replace_from]. simpl String.prefix.
  unfold decide, decide_rel, Ascii.eq_dec.
  destruct (ascii_dec c x); [destruct s|]; reflexivity.
Qed.

Lemma replace_char_app (c : ascii) (new : string) (s1 s2 : string) :
  Text.replace (String c "") new (s1 +:+ s2)
  = Text.replace (String c "") new s1 +:+ Text.replace (String c "") new s2.
Proof.
  induction s1 as [|x s1 IH]; [reflexivity|].
  change (String x s1 +:+ s2) with (String x (s1 +:+ s2)).
  rewrite !replace_char_cons, IH, append_assoc. reflexivity.
Qed.

Lemma replace_char_join (c : ascii) (new sep : string) (pieces : list string) :
  Text.replace (String c "") new (Text.join sep pieces)
  = Text.join (Text.replace (String c "") new sep)
              (map (Text.replace (String c "") new) pieces).
Proof.
  induction pieces as [|p pieces IH]; [reflexivity|].
  destruct pieces as [|q pieces]; [reflexivity|].
  rewrite TextFacts.join_cons, !replace_char_app, IH. reflexivity.
Qed.

(** What the two replacements of [html_message] amount to. *)
Lemma html_message_rendering (message : string) :
  html_message message = html_rendering message.
Proof.
  unfold html_message, html_rendering.
  rewrite (TextFacts.replace_join_split Text.NLNL).
  change Text.NL with (String Text.newline "").
  rewrite replace_char_join.
  change (Text.replace (String Text.newline "") "<br>" "</p><p>")
    with "</p><p>".
  do 3 f_equal. apply map_ext. intros paragraph.
  apply TextFacts.replace_join_split.
Qed.

(** C9, as amended: the HTML message of the service response is the
    rendering of the formatted share message in which the text between
    blank-line breaks stands in paragraph tags and each remaining newline
    is a line break; the text itself, names included, is copied as it is,
    without HTML escaping. *)
Theorem C9_html_message_unescaped_rendering (client sender : string) :
  let plain := formatted_message (build_share_message client sender) in
  html_message plain = html_rendering plain.
Proof. intros plain. apply html_message_rendering. Qed.

(** C9, as stated, fails for a client name that holds markup: the name
    reaches the HTML message as it is, where the escaped rendering has
    [&lt;b&gt;]. *)
Lemma C9_markup_not_escaped :
  let plain := formatted_message (build_share_message "<b>" "x") in
  plain = build_share_message "<b>" "x" /\
  html_message plain <> html_escaped_rendering plain /\
  Text.contains "<b>" (html_message plain) = true /\
  Text.contains "<b>" (html_escaped_rendering plain) = false /\
  Text.contains "&lt;b&gt;" (html_escaped_rendering plain) = true.
Proof.
  vm_compute. repeat split; try reflexivity. intros H. discriminate H.
Qed.

(** ** The consolidated list *)

(** C5: when the workbook can be read and the named sheet, if one is
    named, exists, [extract_unique_skills] returns a list that holds
    exactly the tokens that tokenization derives from some cell of some
    column of a selected sheet -- the named one, or all sheets if none
    is named -- each token once, in the order of the lower-cased
    tokens; so every such token is in the list, in its own casing. *)
Theorem C5_consolidated_covers_all_cells {file : Type}
    (parse_workbook : file -> option (list (string * DataFrame)))
    (order : SetOrder) (p : Path) (f : file)
    (book : list (string * DataFrame)) (fs : gmap Path file)
    (sheet : option string) :
  fs !! p = Some f -> parse_workbook f = Some book ->
  (forall name, sheet = Some name -> name <> "" ->
                is_Some (sheet_by_name name book)) ->
  exists l,
    extract_unique_skills parse_workbook order p sheet fs = (Ok l, fs) /\
    (forall t, t ∈ l <->
       exists name df col v,
         name ∈ selected_names sheet book /\
         sheet_by_name name book = Some df /\
         col ∈ df /\ Some v ∈ values col /\ t ∈ flatten_values [v]) /\
    NoDup l /\ StronglySorted (key_le Text.lower) l.
Proof.
  intros Hf Hb Hsheet.
  assert (Hall : forall name, name ∈ selected_names sheet book ->
                              is_Some (sheet_by_name name book)).
  { intros name Hname. unfold selected_names in Hname.
    destruct sheet as [n|]; [|apply sheet_by_name_listed; exact Hname].
    destruct (Text.truthy n) eqn:Hn; [|apply sheet_by_name_listed; exact Hname].
    apply list_elem_of_singleton in Hname. subst name.
    apply Hsheet; [reflexivity|]. apply TextFacts.truthy_spec. exact Hn. }
  eexists. split; [apply (extract_unique_skills_ok _ _ p f book fs sheet Hf Hb Hall)|].
  split; [|split; [apply sorted_set_NoDup | apply sorted_sorted]].
  intros t. rewrite sorted_set_elem. unfold all_tokens.
  rewrite list_elem_of_In, in_concat. split.
  - intros (l & Hl & Ht). apply in_map_iff in Hl.
    destruct Hl as (name & <- & Hname). apply list_elem_of_In in Hname.
    destruct (Hall name Hname) as [df Hdf]. rewrite Hdf in Ht. simpl in Ht.
    apply list_elem_of_In, elem_of_frame_tokens in Ht.
    destruct Ht as (col & v & Hcol & Hv & Ht).
    exists name, df, col, v. repeat split; assumption.
  - intros (name & df & col & v & Hname & Hdf & Hcol & Hv & Ht).
    exists (frame_tokens df). split.
    + apply in_map_iff. exists name. rewrite Hdf. split; [reflexivity|].
      apply list_elem_of_In. exact Hname.
    + apply list_elem_of_In, elem_of_frame_tokens. exists col, v.
      repeat split; assumption.
Qed.

Lemma C5_witness :
  exists l,
    extract_unique_skills Sample.parse_workbook plain_order ["client.xlsx"]
      (Some "October") Sample.scenario_B = (Ok l, Sample.scenario_B) /\
    "Java" ∈ l /\ NoDup l /\ StronglySorted (key_le Text.lower) l.
Proof.
  destruct (C5_consolidated_covers_all_cells Sample.parse_workbook plain_order
              ["client.xlsx"] (Sample.Xlsx [("October", Sample.frame_B)])
              _ Sample.scenario_B (Some "October")
              ltac:(vm_compute; reflexivity) ltac:(reflexivity)
              ltac:(intros name [= <-] _; vm_compute; eexists; reflexivity))
    as (l & Hrun & Hmem & Hnd & Hsorted).
  exists l. split; [exact Hrun|]. split; [|split; assumption].
  apply Hmem.
  exists "October", Sample.frame_B, Sample.jobs_B, (CStr "Python, Java").
  split; [vm_compute; left|].
  split; [vm_compute; reflexivity|].
  split; [right; left|].
  split; [left|]. vm_compute. right; left.
Defined.

(** C1, at Scenario A: whatever order the set is iterated in, the
    consolidated list of the column "Excel, Word", "excel",
    "PowerPoint\nOutlook" has five entries, not four: it is sorted by
    lower-cased token, but it holds both "Excel" and "excel", which are
    equal under case-insensitive comparison. *)
Theorem C1_scenario_A_keeps_both_casings (order : SetOrder) :
  exists l,
    extract_unique_skills Sample.parse_workbook order ["skills.xlsx"] None
      Sample.scenario_A = (Ok l, Sample.scenario_A) /\
    l ≡ₚ ["Excel"; "Word"; "excel"; "PowerPoint"; "Outlook"] /\
    length l = 5 /\
    "Excel" ∈ l /\ "excel" ∈ l /\ Text.lower "Excel" = Text.lower "excel" /\
    StronglySorted (key_le Text.lower) l.
Proof.
  eexists. split.
  { eapply (extract_unique_skills_ok Sample.parse_workbook order
              ["skills.xlsx"] _ _ Sample.scenario_A None).
    - vm_compute. reflexivity.
    - reflexivity.
    - intros name Hname. apply sheet_by_name_listed. exact Hname. }
  assert (Hperm : sorted (set_iter order (all_tokens None
                    [("Sheet1",
                      [ {| label := "Skills";
                           values := [Some (CStr "Excel, Word");
                                      Some (CStr "excel");
                                      Some (CStr ("PowerPoint" +:+ Text.NL
                                                  +:+ "Outlook"))] |} ])]))
                    Text.lower
                  ≡ₚ ["Excel"; "Word"; "excel"; "PowerPoint"; "Outlook"]).
  { rewrite sorted_set_perm. vm_compute. reflexivity. }
  split; [exact Hperm|].
  split; [rewrite Hperm; reflexivity|].
  split; [rewrite Hperm; left|].
  split; [rewrite Hperm; right; right; left|].
  split; [reflexivity | apply sorted_sorted].
Qed.

(** C8, at Scenario E: on a workbook whose one sheet is blank the
    consolidated list is empty and its review sheet has the header row
    only, but [process_skills] does not get that far: with the sheet
    named it fails on the first column of a table without columns, and
    without a sheet name on the dictionary of tables; nothing is saved. *)
Theorem C8_blank_workbook_fails (order : SetOrder) (client sender : string) :
  process_skills Sample.parse_workbook Sample.saved Sample.writable order ["empty.xlsx"]
    (Some "Sheet1") client sender Sample.scenario_E
    = (Raise IndexError_columns, Sample.scenario_E) /\
  process_skills Sample.parse_workbook Sample.saved Sample.writable order ["empty.xlsx"]
    None client sender Sample.scenario_E
    = (Raise AttributeError_columns, Sample.scenario_E) /\
  extract_unique_skills Sample.parse_workbook order ["empty.xlsx"]
    (Some "Sheet1") Sample.scenario_E = (Ok [], Sample.scenario_E) /\
  exists wb, review_sheet [] ∅ "TableStyleMedium9" true false = Ok wb /\
             max_row (active wb) = 1.
Proof.
  assert (Hf : Sample.scenario_E !! ["empty.xlsx"]
               = Some (Sample.Xlsx [("Sheet1", [])]))
    by (vm_compute; reflexivity).
  split; [|split; [|split]].
  - apply (process_skills_no_columns _ _ _ _ _ _ [("Sheet1", [])] _ _ _ _ Hf);
      [reflexivity | discriminate | reflexivity].
  - apply (process_skills_dict _ _ _ _ _ _ [("Sheet1", [])] _ _ _ Hf);
      [reflexivity | discriminate].
  - erewrite (extract_unique_skills_ok Sample.parse_workbook order _ _
                [("Sheet1", [])] _ (Some "Sheet1") Hf eq_refl).
    + f_equal. f_equal.
      apply Permutation_nil_r. symmetry. rewrite sorted_set_perm. reflexivity.
    + intros name Hname. apply list_elem_of_singleton in Hname. subst name.
      eexists; reflexivity.
  - exists (built_sheet [] ∅ "TableStyleMedium9" true false).
    split; [rewrite review_sheet_built; reflexivity|].
    apply (built_sheet_max_row []).
Qed.

(** ** The theorems at concrete inputs *)

Lemma C6_witness :
  process_skills Sample.parse_workbook Sample.saved Sample.writable plain_order ["client.xlsx"]
    (Some "November") "Morgan" "Your Name" Sample.scenario_B
    = (Raise (WorksheetNotFound "November"), Sample.scenario_B) /\
  main Sample.parse_workbook Sample.saved Sample.writable plain_order
       {| arg_excel_path := ["client.xlsx"]; arg_sheet := Some "November";
          arg_output := Some ["out.xlsx"];
          arg_client := "Morgan"; arg_sender := "Your Name" |}
       Sample.scenario_B
    = (Raise (WorksheetNotFound "November"), Sample.scenario_B).
Proof.
  apply (C6_missing_sheet_fails Sample.parse_workbook Sample.saved Sample.writable plain_order
           ["client.xlsx"] (Sample.Xlsx [("October", Sample.frame_B)])
           [("October", Sample.frame_B)] Sample.scenario_B
           "November" "Morgan" "Your Name" (Some ["out.xlsx"])).
  - vm_compute. reflexivity.
  - reflexivity.
  - vm_compute. discriminate.
  - vm_compute. reflexivity.
Defined.

Lemma C7_witness :
  process_skills Sample.parse_workbook Sample.saved Sample.writable plain_order ["absent.xlsx"]
    (Some "October") "Client" "Your Name" Sample.scenario_B
    = (Raise (FileNotFoundError ["absent.xlsx"]), Sample.scenario_B) /\
  main Sample.parse_workbook Sample.saved Sample.writable plain_order
       {| arg_excel_path := ["absent.xlsx"]; arg_sheet := Some "October";
          arg_output := None;
          arg_client := "Client"; arg_sender := "Your Name" |}
       Sample.scenario_B
    = (Raise (SystemExit_input_not_found ["absent.xlsx"]), Sample.scenario_B).
Proof.
  apply (C7_missing_input_fails Sample.parse_workbook Sample.saved Sample.writable plain_order
           ["absent.xlsx"] Sample.scenario_B (Some "October")
           "Client" "Your Name" None).
  vm_compute. reflexivity.
Defined.

Lemma C10_witness :
  process_skills Sample.parse_workbook Sample.saved Sample.writable plain_order ["client.xlsx"]
    None "Client" "Your Name" Sample.scenario_B
    = (Raise AttributeError_columns, Sample.scenario_B).
Proof.
  apply (C10_no_sheet_name_fails Sample.parse_workbook Sample.saved Sample.writable plain_order
           ["client.xlsx"] (Sample.Xlsx [("October", Sample.frame_B)])
           [("October", Sample.frame_B)] Sample.scenario_B
           "Client" "Your Name" None).
  - vm_compute. reflexivity.
  - reflexivity.
  - vm_compute. discriminate.
Defined.


Lemma C3_witness :
  exists wb,
    review_sheet ["Java"; "Python"; "SQL"] {[ "Python" ]}
      "TableStyleMedium9" true false = Ok wb /\
    max_row (active wb) = 4 /\
    exists t, tables (active wb) = [t] /\ ref t = range_ref 1 A 4 B.
Proof.
  pose (run := create_review_workbook Sample.saved Sample.writable
                 ["Java"; "Python"; "SQL"] ({[ "Python" ]} : gset string)
                 ["out.xlsx"] "TableStyleMedium9" true false ∅).
  assert (Hrun : run = (Ok (), run.2)) by (vm_compute; reflexivity).
  destruct (C3_row_count_and_table_ref Sample.saved Sample.writable
              ["Java"; "Python"; "SQL"] {[ "Python" ]} ["out.xlsx"]
              "TableStyleMedium9" true false ∅ run.2 Hrun)
    as (wb & Hwb & _ & Hrows & _ & _ & _ & t & Ht & _ & Href).
  exists wb. split; [exact Hwb|]. split; [exact Hrows|].
  exists t. split; [exact Ht|]. rewrite Href, Hrows. reflexivity.
Defined.

(** * Further properties of the code *)

(** ** Characters, pieces and trimming *)

Lemma occurs_app (c : ascii) (s1 s2 : string) :
  occurs c (s1 +:+ s2) = occurs c s1 || occurs c s2.
Proof.
  induction s1 as [|x s1 IH]; [reflexivity|].
  change (String x s1 +:+ s2) with (String x (s1 +:+ s2)).
  cbn [occurs]. rewrite IH, orb_assoc. reflexivity.
Qed.

Lemma split_char_cons (c x : ascii) (s : string) :
  Text.split (String c "") (String x s)
  = if decide (c = x) then "" :: Text.split (String c "") s
    else match Text.split (String c "") s with
         | p :: ps => String x p :: ps
         | [] => [String x ""]
         end.
Proof.
  unfold Text.split. cbn [Text.split_from]. simpl String.prefix.
  unfold decide, decide_rel, Ascii.eq_dec.
  destruct (ascii_dec c x); [destruct s|]; reflexivity.
Qed.

(** No piece of a split on a character holds that character, and a
    piece holds no character the text does not hold. *)
Lemma split_char_pieces (c : ascii) (s p : string) :
  p ∈ Text.split (String c "") s ->
  occurs c p = false /\ forall d, occurs d p = true -> occurs d s = true.
Proof.
  revert p. induction s as [|x s IH]; intros p Hp.
  - apply list_elem_of_singleton in Hp. subst p. split; [reflexivity|auto].
  - rewrite split_char_cons in Hp. destruct (decide (c = x)) as [-> | Hne].
    + apply elem_of_cons in Hp. destruct Hp as [-> | Hp].
      * split; [reflexivity | intros d Hd; discriminate Hd].
      * destruct (IH p Hp) as [H1 H2]. split; [exact H1|].
        intros d Hd. cbn [occurs]. rewrite (H2 d Hd). apply orb_true_r.
    + destruct (TextFacts.split_from_cons (String c "") 0 s) as (q & qs & Hq).
      fold (Text.split (String c "") s) in Hq. rewrite Hq in Hp, IH.
      apply elem_of_cons in Hp. destruct Hp as [-> | Hp].
      * destruct (IH q (list_elem_of_here q qs)) as [H1 H2]. split.
        -- cbn [occurs]. rewrite H1, bool_decide_eq_false_2 by congruence.
           reflexivity.
        -- intros d Hd. cbn [occurs] in Hd |- *.
           apply orb_true_iff in Hd. destruct Hd as [Hd | Hd].
           ++ rewrite Hd. reflexivity.
           ++ rewrite (H2 d Hd). apply orb_true_r.
      * destruct (IH p (list_elem_of_further _ _ _ Hp)) as [H1 H2].
        split; [exact H1|]. intros d Hd. cbn [occurs].
        rewrite (H2 d Hd). apply orb_true_r.
Qed.

Lemma split_char_absent (c : ascii) (s : string) :
  occurs c s = false -> Text.split (String c "") s = [s].
Proof.
  induction s as [|x s IH]; [reflexivity|]. cbn [occurs]. intros H.
  apply orb_false_iff in H. destruct H as [Hx Hs].
  apply bool_decide_eq_false in Hx.
  rewrite split_char_cons, (IH Hs).
  destruct (decide (c = x)); [congruence | reflexivity].
Qed.

Lemma replace_char_absent (c : ascii) (new s : string) :
  occurs c s = false -> Text.replace (String c "") new s = s.
Proof.
  induction s as [|x s IH]; [reflexivity|]. cbn [occurs]. intros H.
  apply orb_false_iff in H. destruct H as [Hx Hs].
  apply bool_decide_eq_false in Hx.
  rewrite replace_char_cons, (IH Hs).
  destruct (decide (c = x)); [congruence | reflexivity].
Qed.

(** Replacing a character removes it, when the replacement is free of it. *)
Lemma replace_char_removes (c : ascii) (new s : string) :
  occurs c new = false -> occurs c (Text.replace (String c "") new s) = false.
Proof.
  intros Hnew. induction s as [|x s IH]; [reflexivity|].
  rewrite replace_char_cons, occurs_app, IH, orb_false_r.
  destruct (decide (c = x)) as [-> | Hne]; [exact Hnew|].
  cbn [occurs]. rewrite bool_decide_eq_false_2 by congruence. reflexivity.
Qed.

Lemma lstrip_occurs (d : ascii) (s : string) :
  occurs d (Text.lstrip s) = true -> occurs d s = true.
Proof.
  induction s as [|x s IH]; [auto|]. cbn [Text.lstrip].
  destruct (Text.isspace x); [|auto].
  intros H. cbn [occurs]. rewrite (IH H). apply orb_true_r.
Qed.

Lemma rstrip_occurs (d : ascii) (s : string) :
  occurs d (Text.rstrip s) = true -> occurs d s = true.
Proof.
  induction s as [|x s IH]; [auto|]. cbn [Text.rstrip].
  destruct (Text.rstrip s) as [|y r].
  - destruct (Text.isspace x); [discriminate|].
    cbn [occurs]. rewrite orb_false_r. intros ->. reflexivity.
  - cbn [occurs] in *. intros H. apply orb_true_iff in H.
    destruct H as [H | H]; [rewrite H; reflexivity|].
    rewrite (IH H). apply orb_true_r.
Qed.

Lemma strip_occurs (d : ascii) (s : string) :
  occurs d (Text.strip s) = true -> occurs d s = true.
Proof. intros H. apply lstrip_occurs, rstrip_occurs, H. Qed.

Lemma rstrip_idem (s : string) : Text.rstrip (Text.rstrip s) = Text.rstrip s.
Proof.
  induction s as [|x s IH]; [reflexivity|]. cbn [Text.rstrip].
  destruct (Text.rstrip s) as [|y r] eqn:Hr.
  - destruct (Text.isspace x) eqn:Hx; [reflexivity|].
    cbn [Text.rstrip]. rewrite Hx. reflexivity.
  - change (Text.rstrip (String x (String y r)))
      with (match Text.rstrip (String y r) with
            | "" => if Text.isspace x then "" else String x ""
            | r' => String x r'
            end).
    rewrite IH. reflexivity.
Qed.

Lemma strip_idem (s : string) : Text.strip (Text.strip s) = Text.strip s.
Proof.
  destruct (Text.strip s) as [|c r] eqn:Hs; [reflexivity|].
  assert (Hne : Text.strip s <> "") by (rewrite Hs; discriminate).
  destruct (TextFacts.strip_starts s Hne) as (c' & r' & Heq & Hc).
  rewrite Hs in Heq. injection Heq as <- <-.
  unfold Text.strip at 1. cbn [Text.lstrip]. rewrite Hc.
  rewrite <- Hs. unfold Text.strip. apply rstrip_idem.
Qed.

(** A trailing part that trimming keeps protects what stands before it. *)
Lemma rstrip_app_kept (a b : string) :
  b <> "" -> Text.rstrip b = b ->
  a +:+ b <> "" /\ Text.rstrip (a +:+ b) = a +:+ b.
Proof.
  intros Hb Hr. induction a as [|x a [IHne IH]]; [split; assumption|].
  change (String x a +:+ b) with (String x (a +:+ b)).
  split; [discriminate|]. cbn [Text.rstrip]. rewrite IH.
  destruct (a +:+ b); [congruence | reflexivity].
Qed.

(** ** Tokens *)

Lemma tokenize_spec_is_token (values : list cell) (t : string) :
  t ∈ tokenize_spec values -> is_token t.
Proof.
  unfold tokenize_spec. intros H.
  apply list_elem_of_In, in_concat in H. destruct H as (l & Hl & Ht).
  apply in_map_iff in Hl. destruct Hl as (v & <- & _).
  apply list_elem_of_In, list_elem_of_filter in Ht. destruct Ht as [Hne Ht].
  apply list_elem_of_In, in_map_iff in Ht. destruct Ht as (piece & <- & Hp).
  apply list_elem_of_In in Hp.
  change Text.COMMA with (String Text.comma "") in Hp.
  destruct (split_char_pieces _ _ _ Hp) as [Hcomma Hsub].
  split; [exact Hne|]. split; [apply strip_idem|]. split.
  - destruct (occurs Text.comma (Text.strip piece)) eqn:Ho; [|reflexivity].
    apply strip_occurs in Ho. congruence.
  - destruct (occurs Text.newline (Text.strip piece)) eqn:Ho; [|reflexivity].
    apply strip_occurs, Hsub in Ho.
    change Text.NL with (String Text.newline "") in Ho.
    rewrite replace_char_removes in Ho by reflexivity. discriminate Ho.
Qed.

Lemma flatten_token (t : string) : is_token t -> flatten_values [CStr t] = [t].
Proof.
  intros (Hne & Hstrip & Hcomma & Hnl).
  rewrite flatten_values_spec. unfold tokenize_spec. cbn [map concat str].
  change Text.NL with (String Text.newline "").
  rewrite (replace_char_absent _ _ _ Hnl).
  change Text.COMMA with (String Text.comma "").
  rewrite (split_char_absent _ _ Hcomma). cbn [map]. rewrite Hstrip.
  rewrite filter_cons_True by exact Hne. reflexivity.
Qed.

Lemma flatten_tokens (ts : list string) :
  Forall is_token ts -> flatten_values (map CStr ts) = ts.
Proof.
  induction 1 as [|t ts Ht _ IH]; [reflexivity|].
  cbn [map]. rewrite flatten_values_cons, (flatten_token t Ht), IH. reflexivity.
Qed.

(** Every token [flatten_values] emits is trimmed at both ends and holds
    neither a comma nor a newline. *)
Theorem flatten_values_tokens_clean (values : list cell) (t : string) :
  t ∈ flatten_values values ->
  Text.strip t = t /\
  occurs Text.comma t = false /\ occurs Text.newline t = false.
Proof.
  rewrite flatten_values_spec. intros H.
  apply tokenize_spec_is_token in H. destruct H as (_ & H). exact H.
Qed.

Lemma flatten_values_tokens_clean_witness :
  Text.strip "Word" = "Word" /\
  occurs Text.comma "Word" = false /\ occurs Text.newline "Word" = false.
Proof.
  apply (flatten_values_tokens_clean [CStr "Excel, Word"] "Word").
  vm_compute. right; left.
Defined.

(** Tokenizing the tokens again changes nothing: fed its own output as
    text cells, [flatten_values] returns it as it is. *)
Theorem flatten_values_idempotent (values : list cell) :
  flatten_values (map CStr (flatten_values values)) = flatten_values values.
Proof.
  apply flatten_tokens. apply Forall_forall. intros t Ht.
  apply (tokenize_spec_is_token values). rewrite <- flatten_values_spec.
  exact Ht.
Qed.

(** The tokens of a sequence of cells are the tokens of its parts, one
    after the other, and of no cells there are none. *)
Theorem flatten_values_concatenates (xs ys : list cell) :
  flatten_values [] = [] /\
  flatten_values (xs ++ ys) = flatten_values xs ++ flatten_values ys.
Proof. split; [reflexivity | apply flatten_values_app]. Qed.

Lemma replace_char_occurs (c : ascii) (new s : string) (d : ascii) :
  occurs d (Text.replace (String c "") new s) = true ->
  occurs d s = true \/ occurs d new = true.
Proof.
  induction s as [|x s IH]; [intros H; discriminate H|].
  rewrite replace_char_cons, occurs_app. intros H.
  apply orb_true_iff in H. destruct H as [H | H].
  - destruct (decide (c = x)); [right; exact H|].
    left. cbn [occurs] in *. rewrite orb_false_r in H. rewrite H. reflexivity.
  - destruct (IH H) as [H' | H']; [left | right; exact H'].
    cbn [occurs]. rewrite H'. apply orb_true_r.
Qed.

Lemma lstrip_blank (s : string) :
  (forall d, occurs d s = true -> Text.isspace d = true) -> Text.lstrip s = "".
Proof.
  induction s as [|x s IH]; [reflexivity|]. intros H. cbn [Text.lstrip].
  rewrite (H x) by (cbn [occurs]; rewrite bool_decide_eq_true_2; reflexivity).
  apply IH. intros d Hd. apply H. cbn [occurs]. rewrite Hd. apply orb_true_r.
Qed.

Lemma filter_strip_blank (pieces : list string) :
  (forall p, p ∈ pieces -> Text.strip p = "") ->
  filter (fun piece => piece <> "") (map Text.strip pieces) = [].
Proof.
  induction pieces as [|p ps IH]; intros H; [reflexivity|]. cbn [map].
  rewrite (H p (list_elem_of_here p ps)).
  rewrite filter_cons_False by (intros Hne; apply Hne; reflexivity).
  apply IH. intros q Hq. apply H. right. exact Hq.
Qed.

(** A cell made of whitespace and delimiters only yields no token. *)
Theorem flatten_values_blank_cell (s : string) :
  (forall d, occurs d s = true -> Text.isspace d = true \/ d = Text.comma) ->
  flatten_values [CStr s] = [].
Proof.
  intros Hs. rewrite flatten_values_spec. unfold tokenize_spec.
  cbn [map concat str]. rewrite app_nil_r.
  apply filter_strip_blank. intros p Hp.
  change Text.COMMA with (String Text.comma "") in Hp.
  destruct (split_char_pieces _ _ _ Hp) as [Hcomma Hsub].
  unfold Text.strip. rewrite lstrip_blank; [reflexivity|].
  intros d Hd. pose proof (Hsub d Hd) as Hd'.
  change Text.NL with (String Text.newline "") in Hd'.
  apply replace_char_occurs in Hd'. destruct Hd' as [Hd' | Hd'].
  - destruct (Hs d Hd') as [Hsp | ->]; [exact Hsp | congruence].
  - cbn [occurs] in Hd'. rewrite orb_false_r in Hd'.
    apply bool_decide_eq_true in Hd'. subst d. congruence.
Qed.

Lemma flatten_values_blank_cell_witness :
  flatten_values [CStr (" , " +:+ Text.NL)] = [].
Proof.
  apply flatten_values_blank_cell. intros d Hd. cbn [occurs String.append] in Hd.
  repeat (apply orb_true_iff in Hd; destruct Hd as [Hd | Hd];
          [apply bool_decide_eq_true in Hd; subst d;
           first [left; reflexivity | right; reflexivity]|]).
  discriminate Hd.
Defined.

(** ** Every outcome of the extraction and of the pipeline *)

Section ClosedForms.

Context {file : Type}.
Variable parse_workbook : file -> option (list (string * DataFrame)).
Variable saved : Workbook -> file.
Variable writable : Path -> bool.
Variable order : SetOrder.

Ltac run H := rewrite (bind_ok _ _ _ _ _ H).

Lemma ExcelFile_absent (p : Path) (fs : gmap Path file) :
  fs !! p = None ->
  ExcelFile parse_workbook p fs = (Raise (FileNotFoundError p), fs).
Proof. intros Hf. unfold ExcelFile. rewrite Hf. reflexivity. Qed.

Lemma ExcelFile_unreadable (p : Path) (f : file) (fs : gmap Path file) :
  fs !! p = Some f -> parse_workbook f = None ->
  ExcelFile parse_workbook p fs = (Raise UnreadableWorkbook, fs).
Proof. intros Hf Hb. unfold ExcelFile. rewrite Hf, Hb. reflexivity. Qed.

Lemma selected_names_found (sheet : option string)
    (book : list (string * DataFrame)) :
  (forall name, sheet = Some name -> name <> "" ->
                is_Some (sheet_by_name name book)) ->
  forall name, name ∈ selected_names sheet book ->
               is_Some (sheet_by_name name book).
Proof.
  intros Hsheet name Hname. unfold selected_names in Hname.
  destruct sheet as [n|]; [|apply sheet_by_name_listed; exact Hname].
  destruct (Text.truthy n) eqn:Hn; [|apply sheet_by_name_listed; exact Hname].
  apply list_elem_of_singleton in Hname. subst name.
  apply Hsheet; [reflexivity|]. apply TextFacts.truthy_spec. exact Hn.
Qed.

(** The outcome of [extract_unique_skills], case by case. *)
Lemma extract_unique_skills_closed (p : Path) (sheet : option string)
    (fs : gmap Path file) :
  extract_unique_skills parse_workbook order p sheet fs
  = (match fs !! p with
     | None => Raise (FileNotFoundError p)
     | Some f =>
         match parse_workbook f with
         | None => Raise UnreadableWorkbook
         | Some book =>
             let found :=
               Ok (sorted (set_iter order (all_tokens sheet book)) Text.lower) in
             match sheet with
             | Some name =>
                 if Text.truthy name
                 then match sheet_by_name name book with
                      | Some _ => found
                      | None => Raise (WorksheetNotFound name)
                      end
                 else found
             | None => found
             end
         end
     end, fs).
Proof.
  destruct (fs !! p) as [f|] eqn:Hf.
  2:{ unfold extract_unique_skills.
      apply bind_raise, ExcelFile_absent, Hf. }
  destruct (parse_workbook f) as [book|] eqn:Hb.
  2:{ unfold extract_unique_skills.
      apply bind_raise, (ExcelFile_unreadable p f fs Hf Hb). }
  cbv zeta.
  destruct sheet as [name|].
  - destruct (Text.truthy name) eqn:Hn.
    + destruct (sheet_by_name name book) as [df|] eqn:Hs.
      * apply (extract_unique_skills_ok _ _ p f book fs _ Hf Hb).
        apply selected_names_found. intros n [= <-] _. rewrite Hs.
        eexists; reflexivity.
      * apply (extract_unique_skills_missing _ _ p f book fs name Hf Hb);
          [apply TextFacts.truthy_spec; exact Hn | exact Hs].
    + apply (extract_unique_skills_ok _ _ p f book fs _ Hf Hb).
      apply selected_names_found. intros n [= <-] Hne.
      apply TextFacts.truthy_spec in Hne. congruence.
  - apply (extract_unique_skills_ok _ _ p f book fs _ Hf Hb).
    apply selected_names_found. intros n [=].
Qed.

(** The outcome of [process_skills], case by case. *)
Lemma process_skills_closed (p : Path) (sheet : option string)
    (client sender : string) (fs : gmap Path file) :
  let out := removelast p ++ [path_stem p +:+ "_review.xlsx"] in
  process_skills parse_workbook saved writable order p sheet client sender fs
  = match fs !! p with
    | None => (Raise (FileNotFoundError p), fs)
    | Some f =>
        if Text.truthy (path_name p) then
          match parse_workbook f with
          | None => (Raise UnreadableWorkbook, fs)
          | Some book =>
              match sheet with
              | None => (Raise AttributeError_columns, fs)
              | Some name =>
                  match sheet_by_name name book with
                  | None => (Raise (WorksheetNotFound name), fs)
                  | Some [] => (Raise IndexError_columns, fs)
                  | Some (col :: cols) =>
                      write_outcome saved writable
                        (review_sheet
                           (sorted (set_iter order
                                      (all_tokens (Some name) book))
                                   Text.lower)
                           (list_to_set (flatten_values (dropna col)))
                           "TableStyleMedium9" true false)
                        out
                        {| output_file := out;
                           message := build_share_message client sender |}
                        fs
                  end
              end
          end
        else (Raise (ValueError_empty_name p), fs)
    end.
Proof.
  intros out. destruct (fs !! p) as [f|] eqn:Hf.
  2:{ unfold process_skills. run (path_exists_absent p fs Hf). reflexivity. }
  destruct (Text.truthy (path_name p)) eqn:Hname.
  2:{ unfold process_skills. run (path_exists_present p f fs Hf).
      cbn [negb]. unfold with_name. rewrite Hname. reflexivity. }
  apply TextFacts.truthy_spec in Hname.
  destruct (parse_workbook f) as [book|] eqn:Hb.
  2:{ rewrite (process_skills_reads _ _ _ _ p f fs _ _ _ Hf Hname).
      apply bind_raise. unfold read_excel.
      apply bind_raise, (ExcelFile_unreadable p f fs Hf Hb). }
  destruct sheet as [name|].
  2:{ apply (process_skills_dict _ _ _ _ p f book fs _ _ Hf Hb Hname). }
  destruct (sheet_by_name name book) as [[|col cols]|] eqn:Hs.
  - apply (process_skills_no_columns _ _ _ _ p f book fs _ _ _ Hf Hb Hname Hs).
  - apply (process_skills_ok _ _ _ _ p f book fs _ _ _ _ _ Hf Hb Hname Hs).
  - rewrite (process_skills_reads _ _ _ _ p f fs _ _ _ Hf Hname).
    apply bind_raise, (read_excel_missing _ p f book fs name Hf Hb Hs).
Qed.

(** What [main] does once the input exists and the output path is
    settled: the same steps as [process_skills]. *)
Lemma main_steps_closed {X : Type} (p : Path) (f : file)
    (sheet : option string) (out : Path) (v : X) (fs : gmap Path file) :
  fs !! p = Some f ->
  (df ← read_excel parse_workbook p sheet;
   linkedin_skills ← lift (determine_linkedin_skills df);
   unique_skills ← extract_unique_skills parse_workbook order p sheet;
   create_review_workbook saved writable unique_skills linkedin_skills out
     "TableStyleMedium9" true false;;
   mret v) fs
  = match parse_workbook f with
    | None => (Raise UnreadableWorkbook, fs)
    | Some book =>
        match sheet with
        | None => (Raise AttributeError_columns, fs)
        | Some name =>
            match sheet_by_name name book with
            | None => (Raise (WorksheetNotFound name), fs)
            | Some [] => (Raise IndexError_columns, fs)
            | Some (col :: cols) =>
                write_outcome saved writable
                  (review_sheet
                     (sorted (set_iter order (all_tokens (Some name) book))
                             Text.lower)
                     (list_to_set (flatten_values (dropna col)))
                     "TableStyleMedium9" true false)
                  out v fs
            end
        end
    end.
Proof.
  intros Hf. destruct (parse_workbook f) as [book|] eqn:Hb.
  2:{ apply bind_raise. unfold read_excel.
      apply bind_raise, (ExcelFile_unreadable p f fs Hf Hb). }
  destruct sheet as [name|].
  2:{ run (read_excel_dict _ p f book fs Hf Hb). reflexivity. }
  destruct (sheet_by_name name book) as [[|col cols]|] eqn:Hs.
  - run (read_excel_frame _ p f book fs name [] Hf Hb Hs). reflexivity.
  - run (read_excel_frame _ p f book fs name _ Hf Hb Hs).
    assert (Hk : lift (determine_linkedin_skills (Frame (col :: cols))) fs
                 = (Ok (list_to_set (flatten_values (dropna col))), fs))
      by reflexivity.
    run Hk. erewrite bind_ok; [apply create_then|].
    rewrite extract_unique_skills_closed, Hf, Hb. cbv zeta. rewrite Hs.
    destruct (Text.truthy name); reflexivity.
  - apply bind_raise, (read_excel_missing _ p f book fs name Hf Hb Hs).
Qed.

(** The outcome of [main], case by case. *)
Lemma main_closed (args : Namespace) (fs : gmap Path file) :
  let p := arg_excel_path args in
  main parse_workbook saved writable order args fs
  = match fs !! p with
    | None => (Raise (SystemExit_input_not_found p), fs)
    | Some f =>
        if match arg_output args with
           | None => Text.truthy (path_name p)
           | Some _ => true
           end
        then
          match parse_workbook f with
          | None => (Raise UnreadableWorkbook, fs)
          | Some book =>
              match arg_sheet args with
              | None => (Raise AttributeError_columns, fs)
              | Some name =>
                  match sheet_by_name name book with
                  | None => (Raise (WorksheetNotFound name), fs)
                  | Some [] => (Raise IndexError_columns, fs)
                  | Some (col :: cols) =>
                      write_outcome saved writable
                        (review_sheet
                           (sorted (set_iter order
                                      (all_tokens (Some name) book))
                                   Text.lower)
                           (list_to_set (flatten_values (dropna col)))
                           "TableStyleMedium9" true false)
                        (main_output args)
                        (main_output args,
                         build_share_message (arg_client args)
                           (arg_sender args))
                        fs
                  end
              end
          end
        else (Raise (ValueError_empty_name p), fs)
    end.
Proof.
  intros p. subst p. destruct (fs !! arg_excel_path args) as [f|] eqn:Hf.
  2:{ unfold main. run (path_exists_absent _ fs Hf). reflexivity. }
  unfold main. run (path_exists_present _ f fs Hf). cbn [negb].
  unfold main_output. destruct (arg_output args) as [output|].
  - rewrite <- (main_steps_closed _ f _ output _ fs Hf). reflexivity.
  - unfold with_name.
    destruct (Text.truthy (path_name (arg_excel_path args))); [|reflexivity].
    rewrite <- (main_steps_closed _ f _ _ _ fs Hf). reflexivity.
Qed.

End ClosedForms.

(** ** The output path *)

Lemma length_append (s1 s2 : string) :
  String.length (s1 +:+ s2) = String.length s1 + String.length s2.
Proof.
  induction s1 as [|c s1 IH]; [reflexivity|].
  change (String c s1 +:+ s2) with (String c (s1 +:+ s2)).
  cbn [String.length]. rewrite IH. reflexivity.
Qed.

Lemma rfind_split (c : ascii) (s : string) (i : nat) :
  rfind c s = Some i -> exists rest, s = substring 0 i s +:+ String c rest.
Proof.
  revert i. induction s as [|a s IH]; intros i; [discriminate|].
  cbn [rfind]. destruct (rfind c s) as [j|].
  - intros [= <-]. destruct (IH j eq_refl) as [rest Hrest].
    exists rest. cbn [substring].
    change (String a (substring 0 j s) +:+ String c rest)
      with (String a (substring 0 j s +:+ String c rest)).
    rewrite <- Hrest. reflexivity.
  - destruct (decide (a = c)) as [-> | _]; [|discriminate].
    intros [= <-]. exists s. reflexivity.
Qed.

(** The stem with the review suffix is never the name itself. *)
Lemma review_name_differs (p : Path) :
  path_stem p +:+ "_review.xlsx" <> path_name p.
Proof.
  unfold path_stem.
  assert (Hlen : path_name p +:+ "_review.xlsx" <> path_name p).
  { intros H. apply (f_equal String.length) in H.
    rewrite length_append in H. cbn [String.length] in H. lia. }
  destruct (rfind "."%char (path_name p)) as [i|] eqn:Hr; [|exact Hlen].
  destruct (decide (0 < i < String.length (path_name p) - 1)); [|exact Hlen].
  destruct (rfind_split _ _ _ Hr) as [rest Hrest].
  intros H. rewrite Hrest in H at 2.
  apply (inj (String.append _)) in H. discriminate H.
Qed.

Lemma output_path_differs (p : Path) :
  removelast p ++ [path_stem p +:+ "_review.xlsx"] <> p.
Proof.
  intros H. pose proof (review_name_differs p) as Hne.
  assert (Hlast : last p = Some (path_stem p +:+ "_review.xlsx"))
    by (rewrite <- H at 1; apply last_snoc).
  destruct p as [|a [|b rest]].
  - discriminate Hlast.
  - injection Hlast as Ha. unfold path_name in Hne.
    destruct (is_root a) eqn:Hroot; [|congruence].
    unfold path_stem, path_name in Ha. rewrite Hroot in Ha.
    cbn in Ha. subst a. discriminate Hroot.
  - change (path_name (a :: b :: rest))
      with (default "" (last (a :: b :: rest))) in Hne.
    rewrite Hlast in Hne. apply Hne. reflexivity.
Qed.

(** ** Properties of the extraction and of the pipeline *)

Lemma write_outcome_raise {file X : Type} (saved : Workbook -> file)
    (writable : Path -> bool) (built : result Workbook) (out : Path) (v : X)
    (fs : gmap Path file) (e : exn) :
  (write_outcome saved writable built out v fs).1 = Raise e ->
  (write_outcome saved writable built out v fs).2 = fs.
Proof.
  unfold write_outcome. destruct built; [|reflexivity].
  destruct (writable out); [discriminate | reflexivity].
Qed.

Lemma write_outcome_ok {file X : Type} (saved : Workbook -> file)
    (writable : Path -> bool) (built : result Workbook) (out : Path) (v v' : X)
    (fs fs' : gmap Path file) :
  write_outcome saved writable built out v fs = (Ok v', fs') ->
  exists wb, built = Ok wb /\ writable out = true /\ v' = v /\
             fs' = <[out := saved wb]> fs.
Proof.
  unfold write_outcome. destruct built as [wb|e]; [|discriminate].
  destruct (writable out); [|discriminate].
  intros [= <- <-]. exists wb. repeat split.
Qed.

Section PipelineProperties.

Context {file : Type}.
Variable parse_workbook : file -> option (list (string * DataFrame)).
Variable saved : Workbook -> file.
Variable writable : Path -> bool.
Variable order : SetOrder.

(** [extract_unique_skills] only reads: whatever it returns, the store
    is as before.  It fails with the reader's file-not-found error on a
    path that does not exist, with its unreadable-workbook error on a
    file that is no workbook, and with its worksheet-not-found error
    when a sheet is named and absent; an empty sheet name selects all
    sheets, like no name. *)
Theorem extract_unique_skills_edge_cases (p : Path) (sheet : option string)
    (fs : gmap Path file) :
  (extract_unique_skills parse_workbook order p sheet fs).2 = fs /\
  (fs !! p = None ->
   (extract_unique_skills parse_workbook order p sheet fs).1
   = Raise (FileNotFoundError p)) /\
  (forall f, fs !! p = Some f -> parse_workbook f = None ->
   (extract_unique_skills parse_workbook order p sheet fs).1
   = Raise UnreadableWorkbook) /\
  (forall f book name,
     fs !! p = Some f -> parse_workbook f = Some book ->
     sheet = Some name -> name <> "" -> sheet_by_name name book = None ->
     (extract_unique_skills parse_workbook order p sheet fs).1
     = Raise (WorksheetNotFound name)) /\
  extract_unique_skills parse_workbook order p (Some "") fs
  = extract_unique_skills parse_workbook order p None fs.
Proof.
  rewrite !extract_unique_skills_closed.
  split; [reflexivity|]. split; [|split; [|split]].
  - intros ->. reflexivity.
  - intros f -> ->. reflexivity.
  - intros f book name -> -> -> Hne ->. cbn.
    apply TextFacts.truthy_spec in Hne. rewrite Hne. reflexivity.
  - destruct (fs !! p) as [f|]; [|reflexivity].
    destruct (parse_workbook f); reflexivity.
Qed.

(** Every entry of a list [extract_unique_skills] returns is a token:
    not empty, trimmed, free of commas and newlines. *)
Theorem extract_unique_skills_tokens (p : Path) (sheet : option string)
    (fs : gmap Path file) (l : list string) :
  (extract_unique_skills parse_workbook order p sheet fs).1 = Ok l ->
  Forall is_token l.
Proof.
  rewrite extract_unique_skills_closed. cbn [fst].
  destruct (fs !! p) as [f|]; [|discriminate].
  destruct (parse_workbook f) as [book|]; [|discriminate]. cbv zeta.
  assert (Hall : Forall is_token
                   (sorted (set_iter order (all_tokens sheet book)) Text.lower)).
  { apply Forall_forall. intros t Ht. apply sorted_set_elem in Ht.
    unfold all_tokens in Ht. apply list_elem_of_In, in_concat in Ht.
    destruct Ht as (ts & Hts & Ht). apply in_map_iff in Hts.
    destruct Hts as (name & <- & _).
    apply list_elem_of_In, elem_of_frame_tokens in Ht.
    destruct Ht as (col & v & _ & _ & Ht).
    apply (tokenize_spec_is_token [v]). rewrite <- flatten_values_spec.
    exact Ht. }
  intros H.
  assert (Heq : Ok (sorted (set_iter order (all_tokens sheet book)) Text.lower)
                = Ok l -> Forall is_token l) by (intros [= <-]; exact Hall).
  destruct sheet as [name|]; [|exact (Heq H)].
  destruct (Text.truthy name); [|exact (Heq H)].
  destruct (sheet_by_name name book); [exact (Heq H) | discriminate H].
Qed.

(** When [process_skills] or [main] fails -- at the check of the input
    path, at the forming of the output name, in a read, in the known-set
    extraction, on a token the writer refuses, or at the opening of the
    destination -- the store is as before: no output file is left
    behind. *)
Theorem pipeline_failure_leaves_store (p : Path) (sheet : option string)
    (client sender : string) (args : Namespace) (fs : gmap Path file) :
  (forall e,
     (process_skills parse_workbook saved writable order p sheet client sender fs).1
     = Raise e ->
     (process_skills parse_workbook saved writable order p sheet client sender fs).2
     = fs) /\
  (forall e,
     (main parse_workbook saved writable order args fs).1 = Raise e ->
     (main parse_workbook saved writable order args fs).2 = fs).
Proof.
  split; intros e.
  - rewrite process_skills_closed.
    destruct (fs !! p) as [f|]; [|reflexivity].
    destruct (Text.truthy (path_name p)); [|reflexivity].
    destruct (parse_workbook f) as [book|]; [|reflexivity].
    destruct sheet as [name|]; [|reflexivity].
    destruct (sheet_by_name name book) as [[|col cols]|];
      try reflexivity. apply write_outcome_raise.
  - rewrite main_closed. cbv zeta.
    destruct (fs !! arg_excel_path args) as [f|]; [|reflexivity].
    destruct (match arg_output args with
              | Some _ => true
              | None => Text.truthy (path_name (arg_excel_path args))
              end); [|reflexivity].
    destruct (parse_workbook f) as [book|]; [|reflexivity].
    destruct (arg_sheet args) as [name|]; [|reflexivity].
    destruct (sheet_by_name name book) as [[|col cols]|];
      try reflexivity. apply write_outcome_raise.
Qed.

(** When [process_skills] succeeds it has written one file, a saved
    workbook, at the input's name with the suffix replaced by
    "_review.xlsx"; that path is never the input path, so the input
    file and every other file are as before; the result names that path
    and carries the share message. *)
Theorem process_skills_success (p : Path) (sheet : option string)
    (client sender : string) (fs fs' : gmap Path file) (o : outcome) :
  process_skills parse_workbook saved writable order p sheet client sender fs
  = (Ok o, fs') ->
  output_file o = removelast p ++ [path_stem p +:+ "_review.xlsx"] /\
  message o = build_share_message client sender /\
  output_file o <> p /\
  (exists wb, fs' !! output_file o = Some (saved wb)) /\
  fs' !! p = fs !! p /\
  (forall q, q <> output_file o -> fs' !! q = fs !! q).
Proof.
  rewrite process_skills_closed.
  destruct (fs !! p) as [f|] eqn:Hf; [|discriminate].
  destruct (Text.truthy (path_name p)); [|discriminate].
  destruct (parse_workbook f) as [book|]; [|discriminate].
  destruct sheet as [name|]; [|discriminate].
  destruct (sheet_by_name name book) as [[|col cols]|]; try discriminate.
  intros H. apply write_outcome_ok in H.
  destruct H as (wb & _ & _ & -> & ->). cbn [output_file message].
  split; [reflexivity|]. split; [reflexivity|].
  split; [apply output_path_differs|].
  split; [exists wb; apply lookup_insert_eq|].
  split.
  - rewrite lookup_insert_ne by apply output_path_differs. exact Hf.
  - intros q Hq. apply lookup_insert_ne. congruence.
Qed.

(** Without an output option [main] does what [process_skills] does,
    on the same store: the same file written, the same path and message
    reported, the same failures, but for the missing input, which ends
    the run through the argument parser. *)
Theorem main_follows_process_skills (p : Path) (sheet : option string)
    (client sender : string) (fs : gmap Path file) :
  main parse_workbook saved writable order
       {| arg_excel_path := p; arg_sheet := sheet; arg_output := None;
          arg_client := client; arg_sender := sender |} fs
  = let '(r, fs') :=
      process_skills parse_workbook saved writable order p sheet client sender fs in
    (match r with
     | Ok o => Ok (output_file o, message o)
     | Raise (FileNotFoundError src) => Raise (SystemExit_input_not_found src)
     | Raise e => Raise e
     end, fs').
Proof.
  rewrite main_closed, process_skills_closed.
  cbv zeta. cbn [arg_excel_path arg_sheet arg_output arg_client arg_sender].
  destruct (fs !! p) as [f|]; [|reflexivity].
  destruct (Text.truthy (path_name p)); [|reflexivity].
  destruct (parse_workbook f) as [book|]; [|reflexivity].
  destruct sheet as [name|]; [|reflexivity].
  destruct (sheet_by_name name book) as [[|col cols]|]; try reflexivity.
  unfold write_outcome, main_output. cbn [arg_output arg_excel_path].
  rewrite review_sheet_built.
  destruct (forallb cell_text _); [|reflexivity].
  destruct (writable _); reflexivity.
Qed.

(** When [main] succeeds it has written one saved workbook, at the
    output option when one is given, and changed no other path; given
    its own input path as the output, it has replaced the input. *)
Theorem main_success (args : Namespace) (fs fs' : gmap Path file)
    (out : Path) (msg : string) :
  main parse_workbook saved writable order args fs = (Ok (out, msg), fs') ->
  out = main_output args /\
  (forall output, arg_output args = Some output -> out = output) /\
  msg = build_share_message (arg_client args) (arg_sender args) /\
  (exists wb, fs' !! out = Some (saved wb)) /\
  (forall q, q <> out -> fs' !! q = fs !! q) /\
  (arg_output args = Some (arg_excel_path args) ->
   exists wb, fs' !! arg_excel_path args = Some (saved wb)).
Proof.
  rewrite main_closed. cbv zeta.
  destruct (fs !! arg_excel_path args) as [f|]; [|discriminate].
  destruct (match arg_output args with
            | Some _ => true
            | None => Text.truthy (path_name (arg_excel_path args))
            end); [|discriminate].
  destruct (parse_workbook f) as [book|]; [|discriminate].
  destruct (arg_sheet args) as [name|]; [|discriminate].
  destruct (sheet_by_name name book) as [[|col cols]|]; try discriminate.
  intros H. apply write_outcome_ok in H.
  destruct H as (wb & _ & _ & [= -> ->] & ->).
  split; [reflexivity|]. split; [|split; [reflexivity|split; [|split]]].
  - intros output Ho. unfold main_output. rewrite Ho. reflexivity.
  - exists wb; apply lookup_insert_eq.
  - intros q Hq. apply lookup_insert_ne. congruence.
  - intros Ho. unfold main_output. rewrite Ho.
    exists wb; apply lookup_insert_eq.
Qed.

End PipelineProperties.

(** ** The review workbook of a run *)

Lemma sheet_by_name_named (book : list (string * DataFrame)) (name : string)
    (df : DataFrame) :
  sheet_by_name name book = Some df -> name ∈ sheet_names book.
Proof.
  induction book as [|[n d] book IH]; [discriminate|]. cbn [sheet_by_name].
  destruct (decide (n = name)) as [-> | _]; intros H.
  - left.
  - right. apply IH, H.
Qed.

Lemma first_column_in_all_tokens (book : list (string * DataFrame))
    (name : string) (col : Series) (cols : list Series) (t : string) :
  sheet_by_name name book = Some (col :: cols) ->
  t ∈ flatten_values (dropna col) -> t ∈ all_tokens (Some name) book.
Proof.
  intros Hs Ht. unfold all_tokens. apply list_elem_of_In, in_concat.
  exists (frame_tokens (col :: cols)). split.
  - apply in_map_iff. exists name. rewrite Hs. split; [reflexivity|].
    apply list_elem_of_In. unfold selected_names.
    destruct (Text.truthy name); [left|].
    apply (sheet_by_name_named book name _ Hs).
  - apply list_elem_of_In. unfold frame_tokens. cbn [map concat].
    apply elem_of_app. left. exact Ht.
Qed.

(** In the review workbook that a successful [process_skills] saves,
    when no token of the selected sheet is longer than a cell takes,
    every token of the sheet's first column has a row, marked "Yes"; a
    data row is marked exactly when its token is one of the first
    column; and no token has two rows. *)
Theorem process_skills_marks_first_column {file : Type}
    (parse_workbook : file -> option (list (string * DataFrame)))
    (saved : Workbook -> file) (writable : Path -> bool) (order : SetOrder)
    (p : Path) (f : file) (book : list (string * DataFrame))
    (fs fs' : gmap Path file) (name client sender : string)
    (col : Series) (cols : list Series) (o : outcome) :
  fs !! p = Some f -> parse_workbook f = Some book ->
  sheet_by_name name book = Some (col :: cols) ->
  (forall t, t ∈ all_tokens (Some name) book -> cut t = t) ->
  process_skills parse_workbook saved writable order p (Some name)
    client sender fs = (Ok o, fs') ->
  exists wb,
    fs' !! (removelast p ++ [path_stem p +:+ "_review.xlsx"])
      = Some (saved wb) /\
    (forall t, t ∈ flatten_values (dropna col) ->
       exists i, cells (active wb) !! (i + 2, A) = Some t /\
                 cells (active wb) !! (i + 2, B) = Some "Yes") /\
    (forall r t, 2 <= r -> cells (active wb) !! (r, A) = Some t ->
       (cells (active wb) !! (r, B) = Some "Yes"
        <-> t ∈ flatten_values (dropna col))) /\
    (forall r r' t, 2 <= r -> 2 <= r' ->
       cells (active wb) !! (r, A) = Some t ->
       cells (active wb) !! (r', A) = Some t -> r = r').
Proof.
  intros Hf Hb Hs Hkept.
  rewrite process_skills_closed, Hf, Hb, Hs.
  destruct (Text.truthy (path_name p)); [|discriminate].
  intros H. apply write_outcome_ok in H.
  destruct H as (wb & Hwb & _ & _ & ->).
  apply review_sheet_inv in Hwb. destruct Hwb as [_ ->].
  eexists. split; [apply lookup_insert_eq|].
  set (L := sorted (set_iter order (all_tokens (Some name) book)) Text.lower).
  assert (HL : forall i skill, L !! i = Some skill -> cut skill = skill).
  { intros i skill Hi. apply Hkept. apply (sorted_set_elem order _ Text.lower).
    eapply list_elem_of_lookup_2. exact Hi. }
  assert (Hrow : forall r t, 2 <= r ->
            cells (active (built_sheet L
                     (list_to_set (flatten_values (dropna col)))
                     "TableStyleMedium9" true false)) !! (r, A) = Some t ->
            L !! (r - 2) = Some t).
  { intros r t Hr. rewrite built_sheet_lookup.
    destruct (decide (r = 1)); [lia|]. destruct (decide (2 <= r)); [|lia].
    destruct (L !! (r - 2)) as [skill|] eqn:Hi; [|discriminate].
    rewrite (HL _ _ Hi). auto. }
  split; [|split].
  - intros t Ht.
    assert (HtL : t ∈ L).
    { apply sorted_set_elem. eapply first_column_in_all_tokens; eassumption. }
    apply list_elem_of_lookup_1 in HtL. destruct HtL as [i Hi]. exists i.
    rewrite !built_sheet_lookup.
    destruct (decide (i + 2 = 1)); [lia|].
    destruct (decide (2 <= i + 2)); [|lia].
    replace (i + 2 - 2) with i by lia. rewrite Hi, (HL _ _ Hi).
    split; [reflexivity|].
    rewrite decide_True by (apply elem_of_list_to_set; exact Ht). reflexivity.
  - intros r t Hr HA. pose proof (Hrow r t Hr HA) as Hi.
    rewrite built_sheet_lookup.
    destruct (decide (r = 1)); [lia|]. destruct (decide (2 <= r)); [|lia].
    rewrite Hi.
    destruct (decide (t ∈ (list_to_set (flatten_values (dropna col))
                            : gset string))) as [Hin | Hout].
    + apply elem_of_list_to_set in Hin. split; auto.
    + split; [discriminate|]. intros Ht. exfalso. apply Hout.
      apply elem_of_list_to_set. exact Ht.
  - intros r r' t Hr Hr' HA HA'.
    pose proof (Hrow r t Hr HA) as Hi. pose proof (Hrow r' t Hr' HA') as Hi'.
    assert (r - 2 = r' - 2); [|lia].
    eapply NoDup_lookup; [apply sorted_set_NoDup | exact Hi | exact Hi'].
Qed.

Lemma process_skills_marks_first_column_witness :
  exists wb,
    (process_skills Sample.parse_workbook Sample.saved Sample.writable
       plain_order ["client.xlsx"] (Some "October") "Morgan" "Pat"
       Sample.scenario_B).2
      !! ["client_review.xlsx"] = Some (Sample.saved wb) /\
    exists i, cells (active wb) !! (i + 2, A) = Some "SQL" /\
              cells (active wb) !! (i + 2, B) = Some "Yes".
Proof.
  pose (run := process_skills Sample.parse_workbook Sample.saved
                 Sample.writable plain_order ["client.xlsx"] (Some "October")
                 "Morgan" "Pat" Sample.scenario_B).
  assert (Hrun : run = (Ok {| output_file := ["client_review.xlsx"];
                              message := build_share_message "Morgan" "Pat" |},
                        run.2)) by (vm_compute; reflexivity).
  assert (Hkept : forall t,
            t ∈ all_tokens (Some "October") [("October", Sample.frame_B)] ->
            cut t = t).
  { intros t Ht. vm_compute in Ht. apply list_elem_of_In in Ht.
    repeat (destruct Ht as [<- | Ht]; [vm_compute; reflexivity|]).
    destruct Ht. }
  destruct (process_skills_marks_first_column Sample.parse_workbook
              Sample.saved Sample.writable plain_order ["client.xlsx"]
              (Sample.Xlsx [("October", Sample.frame_B)])
              [("October", Sample.frame_B)] Sample.scenario_B run.2
              "October" "Morgan" "Pat"
              {| label := "LinkedIn"; values := [Some (CStr "Python, SQL")] |}
              [Sample.jobs_B] _
              ltac:(vm_compute; reflexivity) ltac:(reflexivity)
              ltac:(reflexivity) Hkept Hrun)
    as (wb & Hsaved & Hmarked & _).
  exists wb. split; [exact Hsaved|]. apply Hmarked.
  vm_compute. right; left.
Defined.

(** ** The layout of the review sheet *)

Lemma marking_loop_layout (known : gset string) (rows : list (nat * string))
    (ws : Worksheet) :
  title (marking_loop known rows ws) = title ws /\
  column_width (marking_loop known rows ws) = column_width ws /\
  freeze_panes (marking_loop known rows ws) = freeze_panes ws.
Proof.
  revert ws. induction rows as [|[idx skill] rows IH]; intros ws.
  - repeat split.
  - rewrite marking_loop_cons. destruct (IH (marking_loop known [(idx, skill)] ws))
      as (-> & -> & ->).
    unfold marking_loop. cbn [fold_left].
    destruct (decide (skill ∈ known)); repeat split.
Qed.

(** Whatever the tokens and the known set, a review sheet that gets
    built is titled "Skills Review", has the two header labels in row 1,
    columns A and B 45 and 30 wide, the panes frozen below the header,
    and a table style of the given name with the row and column stripes
    as asked and neither first nor last column set off. *)
Theorem review_sheet_layout (skills : list string) (known : gset string)
    (table_style_name : string) (show_row_stripes show_column_stripes : bool)
    (wb : Workbook) :
  review_sheet skills known table_style_name show_row_stripes
    show_column_stripes = Ok wb ->
  let ws := active wb in
  title ws = "Skills Review" /\
  cells ws !! (1, A) = Some "Skill" /\
  cells ws !! (1, B) = Some "Have skill? (Mark X or YES)" /\
  column_width ws !! A = Some 45%Z /\ column_width ws !! B = Some 30%Z /\
  freeze_panes ws = Some "A2" /\
  map tableStyleInfo (tables ws)
  = [Some {| style_name := table_style_name;
             showFirstColumn := false; showLastColumn := false;
             showRowStripes := show_row_stripes;
             showColumnStripes := show_column_stripes |}].
Proof.
  intros Hwb. apply review_sheet_inv in Hwb. destruct Hwb as [_ ->].
  intros ws.
  destruct (marking_loop_layout known (enumerate skills 2) header_sheet)
    as (Ht & Hw & _).
  split; [exact Ht|].
  split; [unfold ws; rewrite built_sheet_lookup; reflexivity|].
  split; [unfold ws; rewrite built_sheet_lookup; reflexivity|].
  split; [|split; [|split]].
  - change (<[B := 30%Z]> (<[A := 45%Z]>
              (column_width (marking_loop known (enumerate skills 2)
                               header_sheet))) !! A = Some 45%Z).
    rewrite lookup_insert_ne by discriminate. apply lookup_insert_eq.
  - change (<[B := 30%Z]> (<[A := 45%Z]>
              (column_width (marking_loop known (enumerate skills 2)
                               header_sheet))) !! B = Some 30%Z).
    apply lookup_insert_eq.
  - reflexivity.
  - unfold ws. rewrite built_sheet_tables. reflexivity.
Qed.

Lemma review_sheet_layout_witness :
  exists wb,
    review_sheet ["Java"; "Python"] {[ "Python" ]} "TableStyleMedium9"
      true false = Ok wb /\
    title (active wb) = "Skills Review" /\
    freeze_panes (active wb) = Some "A2".
Proof.
  pose (skills := ["Java"; "Python"]).
  pose (known := ({[ "Python" ]} : gset string)).
  exists (built_sheet skills known "TableStyleMedium9" true false).
  assert (Hwb : review_sheet skills known "TableStyleMedium9" true false
                = Ok (built_sheet skills known "TableStyleMedium9" true false))
    by (vm_compute; reflexivity).
  destruct (review_sheet_layout skills known "TableStyleMedium9" true false
              _ Hwb) as (Htitle & _ & _ & _ & _ & Hfreeze & _).
  split; [exact Hwb|]. split; [exact Htitle | exact Hfreeze].
Defined.

(** ** The order of iteration over the set *)

Lemma sorted_unique (key : string -> string) (l1 l2 : list string) :
  StronglySorted (key_le key) l1 -> StronglySorted (key_le key) l2 ->
  l1 ≡ₚ l2 ->
  (forall a b, a ∈ l1 -> b ∈ l1 -> key a = key b -> a = b) ->
  l1 = l2.
Proof.
  intros H1. revert l2.
  induction H1 as [|x l1 Hl1 IH Hx]; intros l2 H2 Hperm Hinj.
  - apply Permutation_nil_l in Hperm. congruence.
  - destruct H2 as [|y l2 Hl2 Hy].
    { apply Permutation_nil_r in Hperm. discriminate. }
    assert (Hxy : x = y).
    { assert (Hyin : y ∈ x :: l1) by (rewrite Hperm; left).
      assert (Hxin : x ∈ y :: l2) by (rewrite <- Hperm; left).
      apply Hinj; [left | exact Hyin |].
      apply String.leb_antisym.
      - apply elem_of_cons in Hyin. destruct Hyin as [-> | Hyin].
        + destruct (String.leb_total (key x) (key x)); assumption.
        + rewrite Forall_forall in Hx. apply (Hx y Hyin).
      - apply elem_of_cons in Hxin. destruct Hxin as [-> | Hxin].
        + destruct (String.leb_total (key y) (key y)); assumption.
        + rewrite Forall_forall in Hy. apply (Hy x Hxin). }
    subst y. f_equal. apply IH; [exact Hl2 | |].
    + eapply Permutation_cons_inv. exact Hperm.
    + intros a b Ha Hb. apply Hinj; right; assumption.
Qed.

(** The order in which the set is iterated shows only among tokens
    that are equal under case-insensitive comparison: two orders give
    lists that are permutations of each other, and the same list when
    no two distinct tokens of the selected sheets have the same
    lower-cased form. *)
Theorem extract_unique_skills_set_order {file : Type}
    (parse_workbook : file -> option (list (string * DataFrame)))
    (order1 order2 : SetOrder) (p : Path) (sheet : option string)
    (fs : gmap Path file) :
  (forall l1 l2,
     (extract_unique_skills parse_workbook order1 p sheet fs).1 = Ok l1 ->
     (extract_unique_skills parse_workbook order2 p sheet fs).1 = Ok l2 ->
     l1 ≡ₚ l2) /\
  ((forall f book a b,
      fs !! p = Some f -> parse_workbook f = Some book ->
      a ∈ all_tokens sheet book -> b ∈ all_tokens sheet book ->
      Text.lower a = Text.lower b -> a = b) ->
   extract_unique_skills parse_workbook order1 p sheet fs
   = extract_unique_skills parse_workbook order2 p sheet fs).
Proof.
  rewrite !extract_unique_skills_closed. cbn [fst].
  destruct (fs !! p) as [f|]; [|split; [discriminate | reflexivity]].
  destruct (parse_workbook f) as [book|] eqn:Hb;
    [|split; [discriminate | reflexivity]].
  cbv zeta.
  assert (Hperm : sorted (set_iter order1 (all_tokens sheet book)) Text.lower
                  ≡ₚ sorted (set_iter order2 (all_tokens sheet book)) Text.lower)
    by (rewrite !sorted_set_perm; reflexivity).
  split.
  - intros l1 l2 H1 H2.
    assert (Heq : forall o l, Ok (sorted (set_iter o (all_tokens sheet book))
                                    Text.lower) = Ok l ->
                  l = sorted (set_iter o (all_tokens sheet book)) Text.lower)
      by (intros o l [= <-]; reflexivity).
    destruct sheet as [name|];
      [destruct (Text.truthy name);
       [destruct (sheet_by_name name book); [|discriminate]|]|];
      rewrite (Heq _ _ H1), (Heq _ _ H2); exact Hperm.
  - intros Hinj.
    assert (Hsame : sorted (set_iter order1 (all_tokens sheet book)) Text.lower
                    = sorted (set_iter order2 (all_tokens sheet book)) Text.lower).
    { apply (sorted_unique Text.lower); [apply sorted_sorted.. | exact Hperm |].
      intros a b Ha Hb0. apply sorted_set_elem in Ha, Hb0.
      apply (Hinj f book a b eq_refl Hb Ha Hb0). }
    rewrite Hsame. reflexivity.
Qed.

(** ** The messages of the service response *)

Lemma replace_head_absent (c : ascii) (old' new s : string) :
  occurs c s = false -> Text.replace (String c old') new s = s.
Proof.
  unfold Text.replace. induction s as [|x s IH]; [reflexivity|].
  cbn [occurs]. intros H. apply orb_false_iff in H. destruct H as [Hx Hs].
  apply bool_decide_eq_false in Hx.
  cbn [Text.replace_from String.prefix].
  destruct (ascii_dec c x); [congruence|]. rewrite (IH Hs). reflexivity.
Qed.

(** The fixed text of the share message holds neither a backslash nor
    a carriage return. *)
Lemma share_message_backslash_free (client sender : string) :
  occurs Text.backslash client = false ->
  occurs Text.backslash sender = false ->
  occurs Text.backslash (build_share_message client sender) = false.
Proof.
  intros Hc Hs. unfold build_share_message.
  rewrite !occurs_app, Hc, Hs. reflexivity.
Qed.

Lemma share_message_cr_free (client sender : string) :
  occurs Text.carriage_return client = false ->
  occurs Text.carriage_return sender = false ->
  occurs Text.carriage_return (build_share_message client sender) = false.
Proof.
  intros Hc Hs. unfold build_share_message.
  rewrite !occurs_app, Hc, Hs. reflexivity.
Qed.

Lemma rstrip_app (a b : string) :
  Text.rstrip b <> "" ->
  a +:+ Text.rstrip b <> "" /\ Text.rstrip (a +:+ b) = a +:+ Text.rstrip b.
Proof.
  intros Hb. induction a as [|x a [IHne IH]]; [split; [exact Hb | reflexivity]|].
  change (String x a +:+ b) with (String x (a +:+ b)).
  change (String x a +:+ Text.rstrip b) with (String x (a +:+ Text.rstrip b)).
  split; [discriminate|]. cbn [Text.rstrip]. rewrite IH.
  destruct (a +:+ Text.rstrip b); [congruence | reflexivity].
Qed.

(** The post-processing of a share message whose names hold neither a
    backslash nor a carriage return only trims its end. *)
Lemma formatted_share_message (client sender : string) :
  occurs Text.backslash client = false ->
  occurs Text.backslash sender = false ->
  occurs Text.carriage_return client = false ->
  occurs Text.carriage_return sender = false ->
  formatted_message (build_share_message client sender)
  = Text.rstrip (build_share_message client sender).
Proof.
  intros Hbc Hbs Hrc Hrs. unfold formatted_message, Text.BACKSLASH_N, Text.CRLF.
  rewrite (replace_head_absent Text.backslash)
    by (apply share_message_backslash_free; assumption).
  rewrite (replace_head_absent Text.carriage_return)
    by (apply share_message_cr_free; assumption).
  unfold Text.strip. f_equal.
Qed.

Lemma rstrip_share_message (client sender : string) :
  sender <> "" -> Text.rstrip sender = sender ->
  Text.rstrip (build_share_message client sender)
  = build_share_message client sender.
Proof.
  intros Hne Hr. unfold build_share_message.
  assert (H : forall a b, b <> "" /\ Text.rstrip b = b ->
                          a +:+ b <> "" /\ Text.rstrip (a +:+ b) = a +:+ b)
    by (intros a b [? ?]; apply rstrip_app_kept; assumption).
  apply H. repeat apply H. split; assumption.
Qed.

(** The plain message of the response, for names that hold neither a
    backslash nor a carriage return, is the share message with its end
    trimmed; it is the share message itself when the sender name is not
    empty and does not end in whitespace. *)
Theorem formatted_message_plain_names (client sender : string) :
  occurs Text.backslash client = false ->
  occurs Text.backslash sender = false ->
  occurs Text.carriage_return client = false ->
  occurs Text.carriage_return sender = false ->
  formatted_message (build_share_message client sender)
  = Text.rstrip (build_share_message client sender) /\
  (sender <> "" -> Text.rstrip sender = sender ->
   formatted_message (build_share_message client sender)
   = build_share_message client sender).
Proof.
  intros Hbc Hbs Hrc Hrs.
  rewrite (formatted_share_message client sender Hbc Hbs Hrc Hrs).
  split; [reflexivity|]. intros Hne Hr. apply rstrip_share_message; assumption.
Qed.

Lemma formatted_message_plain_names_witness :
  formatted_message (build_share_message "Morgan" "Pat ")
  = Text.rstrip (build_share_message "Morgan" "Pat ").
Proof.
  apply (formatted_message_plain_names "Morgan" "Pat "); reflexivity.
Defined.

(** The plain message of the response never starts or ends with
    whitespace: trimming it again changes nothing. *)
Theorem formatted_message_trimmed (raw_message : string) :
  Text.strip (formatted_message raw_message) = formatted_message raw_message /\
  (forall c r, formatted_message raw_message = String c r ->
               Text.isspace c = false).
Proof.
  unfold formatted_message. split; [apply strip_idem|].
  intros c r H.
  set (s := Text.replace Text.CRLF Text.NL
              (Text.replace Text.BACKSLASH_N Text.NL raw_message)) in *.
  assert (Hne : Text.strip s <> "") by (rewrite H; discriminate).
  destruct (TextFacts.strip_starts s Hne) as (c' & r' & Heq & Hc).
  rewrite H in Heq. injection Heq as -> ->. exact Hc.
Qed.

(** The HTML message of the response holds no newline character,
    whatever the message: every newline has become a tag. *)
Theorem html_message_no_newline (message : string) :
  occurs Text.newline (html_message message) = false.
Proof.
  unfold html_message. rewrite !occurs_app.
  change Text.NL with (String Text.newline "").
  rewrite replace_char_removes by reflexivity. reflexivity.
Qed.

Lemma replace_nlnl_step (new a s : string) :
  occurs Text.newline a = false ->
  Text.replace Text.NLNL new (a +:+ s) = a +:+ Text.replace Text.NLNL new s.
Proof.
  unfold Text.replace, Text.NLNL.
  induction a as [|x a IH]; [reflexivity|].
  cbn [occurs]. intros H. apply orb_false_iff in H. destruct H as [Hx Ha].
  apply bool_decide_eq_false in Hx.
  change (String x a +:+ s) with (String x (a +:+ s)).
  change (String x a +:+ Text.replace_from (String Text.newline Text.NL) new 0 s)
    with (String x (a +:+ Text.replace_from (String Text.newline Text.NL) new 0 s)).
  cbn [Text.replace_from String.prefix].
  destruct (ascii_dec Text.newline x); [congruence|].
  rewrite (IH Ha). reflexivity.
Qed.

Lemma replace_nlnl_break (new s : string) :
  Text.replace Text.NLNL new (Text.NLNL +:+ s)
  = new +:+ Text.replace Text.NLNL new s.
Proof. destruct s; reflexivity. Qed.

Lemma replace_nlnl_last_line (new s : string) :
  occurs Text.newline s = false ->
  Text.replace Text.NLNL new (Text.NL +:+ s) = Text.NL +:+ s.
Proof.
  intros Hs. destruct s as [|x s]; [reflexivity|].
  pose proof (replace_head_absent Text.newline Text.NL new _ Hs) as Hrest.
  cbn [occurs] in Hs. apply orb_false_iff in Hs. destruct Hs as [Hx _].
  apply bool_decide_eq_false in Hx.
  unfold Text.replace, Text.NLNL, Text.NL in *.
  change (String Text.newline "" +:+ String x s)
    with (String Text.newline (String x s)).
  cbn [Text.replace_from String.prefix].
  destruct (ascii_dec Text.newline Text.newline); [|congruence].
  destruct (ascii_dec Text.newline x); [congruence|].
  cbn [Text.replace_from String.prefix] in Hrest.
  destruct (ascii_dec Text.newline x); [congruence|].
  rewrite Hrest. reflexivity.
Qed.

(** For names without backslash, carriage return or newline, and a
    sender name that is not empty and does not end in whitespace, the
    HTML message of the response is three paragraphs: the greeting with
    the client name, the fixed text, and the closing with a line break
    before the sender name; the names are copied as they are. *)
Theorem html_message_three_paragraphs (client sender : string) :
  occurs Text.backslash client = false ->
  occurs Text.backslash sender = false ->
  occurs Text.carriage_return client = false ->
  occurs Text.carriage_return sender = false ->
  occurs Text.newline client = false ->
  occurs Text.newline sender = false ->
  sender <> "" -> Text.rstrip sender = sender ->
  html_message (formatted_message (build_share_message client sender))
  = "<p>Hi " +:+ client
    +:+ ",</p><p>I've compiled a list of possible job titles and their skills for you. Your current LinkedIn skills are already marked. Please review the list and mark 'Yes' in the second column for any additional skills you have.</p><p>Thanks,<br>"
    +:+ sender +:+ "</p>".
Proof.
  intros Hbc Hbs Hrc Hrs Hnc Hns Hne Hr.
  rewrite (formatted_share_message client sender Hbc Hbs Hrc Hrs).
  rewrite (rstrip_share_message client sender Hne Hr).
  unfold html_message, build_share_message.
  repeat first
    [ rewrite replace_nlnl_step by first [assumption | reflexivity]
    | rewrite replace_nlnl_break ].
  rewrite replace_nlnl_last_line by assumption.
  change Text.NL with (String Text.newline "").
  rewrite !replace_char_app.
  rewrite (replace_char_absent _ _ client Hnc).
  rewrite (replace_char_absent _ _ sender Hns).
  rewrite !append_assoc. reflexivity.
Qed.

Lemma html_message_three_paragraphs_witness :
  html_message (formatted_message (build_share_message "<b>Morgan</b>" "Pat"))
  = "<p>Hi " +:+ "<b>Morgan</b>"
    +:+ ",</p><p>I've compiled a list of possible job titles and their skills for you. Your current LinkedIn skills are already marked. Please review the list and mark 'Yes' in the second column for any additional skills you have.</p><p>Thanks,<br>"
    +:+ "Pat" +:+ "</p>".
Proof.
  apply (html_message_three_paragraphs "<b>Morgan</b>" "Pat");
    first [reflexivity | discriminate].
Defined.

(** ** The known set *)

(** [determine_linkedin_skills] fails on the dictionary of a read
    without sheet name and on a table without columns; on any other
    table it returns the tokens of the non-missing cells of the first
    column, and the other columns play no part. *)
Theorem determine_linkedin_skills_cases (d : list (string * DataFrame))
    (col : Series) (cols : list Series) :
  determine_linkedin_skills (SheetDict d) = Raise AttributeError_columns /\
  determine_linkedin_skills (Frame []) = Raise IndexError_columns /\
  determine_linkedin_skills (Frame (col :: cols))
  = determine_linkedin_skills (Frame [col]) /\
  exists known,
    determine_linkedin_skills (Frame (col :: cols)) = Ok known /\
    forall t, t ∈ known <->
              exists v, Some v ∈ values col /\ t ∈ flatten_values [v].
Proof.
  split; [reflexivity|]. split; [reflexivity|]. split; [reflexivity|].
  eexists. split; [reflexivity|]. intros t.
  rewrite elem_of_list_to_set, elem_of_flatten_values. split.
  - intros (v & Hv & Ht). exists v. split; [apply elem_of_dropna|]; assumption.
  - intros (v & Hv & Ht). exists v. split; [apply elem_of_dropna|]; assumption.
Qed.

(** ** More on the runs of the pipeline *)

Section PipelineRuns.

Context {file : Type}.
Variable parse_workbook : file -> option (list (string * DataFrame)).
Variable saved : Workbook -> file.
Variable writable : Path -> bool.
Variable order : SetOrder.



(** The failures of [process_skills] the reader and the table shape
    cause: a file that is no workbook fails as unreadable, whether a
    sheet is named or not; a named sheet without columns fails on the
    index of the first column; an existing path without a name fails
    when the output name is formed. *)
Theorem process_skills_failures (p : Path) (f : file) (sheet : option string)
    (client sender : string) (fs : gmap Path file) :
  fs !! p = Some f ->
  (path_name p = "" ->
   process_skills parse_workbook saved writable order p sheet client sender fs
   = (Raise (ValueError_empty_name p), fs)) /\
  (path_name p <> "" -> parse_workbook f = None ->
   process_skills parse_workbook saved writable order p sheet client sender fs
   = (Raise UnreadableWorkbook, fs)) /\
  (forall book name,
     path_name p <> "" -> parse_workbook f = Some book ->
     sheet = Some name -> sheet_by_name name book = Some [] ->
     process_skills parse_workbook saved writable order p sheet client sender fs
     = (Raise IndexError_columns, fs)).
Proof.
  intros Hf. rewrite process_skills_closed, Hf. split; [|split].
  - intros ->. reflexivity.
  - intros Hn ->. apply TextFacts.truthy_spec in Hn. rewrite Hn. reflexivity.
  - intros book name Hn -> -> ->.
    apply TextFacts.truthy_spec in Hn. rewrite Hn. reflexivity.
Qed.


(** Naming a sheet only narrows the list: every token of the list for
    a named sheet is in the list for the whole workbook. *)
Theorem extract_named_sheet_narrows (p : Path) (name : string)
    (fs : gmap Path file) (l_sheet l_all : list string) :
  (extract_unique_skills parse_workbook order p (Some name) fs).1 = Ok l_sheet ->
  (extract_unique_skills parse_workbook order p None fs).1 = Ok l_all ->
  l_sheet ⊆ l_all.
Proof.
  rewrite !extract_unique_skills_closed. cbn [fst].
  destruct (fs !! p) as [f|]; [|discriminate].
  destruct (parse_workbook f) as [book|]; [|discriminate]. cbv zeta.
  intros Hsheet [= <-].
  destruct (Text.truthy name) eqn:Hn.
  2:{ injection Hsheet as <-. intros t. rewrite !sorted_set_elem.
      unfold all_tokens, selected_names. rewrite Hn. auto. }
  destruct (sheet_by_name name book) as [df|] eqn:Hs; [|discriminate].
  injection Hsheet as <-. intros t. rewrite !sorted_set_elem.
  unfold all_tokens, selected_names. rewrite Hn. cbn [map concat].
  rewrite Hs, app_nil_r. cbn [default]. intros Ht.
  apply list_elem_of_In, in_concat. exists (frame_tokens df). split.
  - apply in_map_iff. exists name. rewrite Hs. split; [reflexivity|].
    apply list_elem_of_In, (sheet_by_name_named book name df Hs).
  - apply list_elem_of_In. exact Ht.
Qed.

End PipelineRuns.

(** ** The further properties at concrete inputs *)

Lemma extract_unique_skills_tokens_witness :
  Forall is_token ["Excel"; "excel"; "Outlook"; "PowerPoint"; "Word"].
Proof.
  apply (extract_unique_skills_tokens Sample.parse_workbook plain_order
           ["skills.xlsx"] None Sample.scenario_A).
  vm_compute. reflexivity.
Defined.

Lemma process_skills_success_witness :
  let fs' :=
    (process_skills Sample.parse_workbook Sample.saved Sample.writable plain_order
       ["client.xlsx"] (Some "October") "Morgan" "Pat" Sample.scenario_B).2 in
  (exists wb, fs' !! ["client_review.xlsx"] = Some (Sample.saved wb)) /\
  fs' !! ["client.xlsx"] = Sample.scenario_B !! ["client.xlsx"].
Proof.
  intros fs'.
  destruct (process_skills_success Sample.parse_workbook Sample.saved
              Sample.writable plain_order ["client.xlsx"] (Some "October") "Morgan" "Pat"
              Sample.scenario_B fs'
              {| output_file := ["client_review.xlsx"];
                 message := build_share_message "Morgan" "Pat" |}
              ltac:(vm_compute; reflexivity))
    as (_ & _ & _ & Hwritten & Hinput & _).
  split; [exact Hwritten | exact Hinput].
Defined.

Lemma main_success_witness :
  let args := {| arg_excel_path := ["client.xlsx"]; arg_sheet := Some "October";
                 arg_output := Some ["client.xlsx"];
                 arg_client := "Morgan"; arg_sender := "Pat" |} in
  exists wb,
    (main Sample.parse_workbook Sample.saved Sample.writable plain_order args Sample.scenario_B).2
      !! ["client.xlsx"] = Some (Sample.saved wb).
Proof.
  intros args.
  destruct (main_success Sample.parse_workbook Sample.saved Sample.writable plain_order args
              Sample.scenario_B
              (main Sample.parse_workbook Sample.saved Sample.writable plain_order args
                 Sample.scenario_B).2
              ["client.xlsx"] (build_share_message "Morgan" "Pat")
              ltac:(vm_compute; reflexivity))
    as (_ & _ & _ & _ & _ & Hreplaced).
  apply Hreplaced. reflexivity.
Defined.

Lemma process_skills_failures_witness :
  process_skills Sample.parse_workbook Sample.saved Sample.writable plain_order ["empty.xlsx"]
    (Some "Sheet1") "Client" "Your Name" Sample.scenario_E
  = (Raise IndexError_columns, Sample.scenario_E).
Proof.
  destruct (process_skills_failures Sample.parse_workbook Sample.saved
              Sample.writable plain_order ["empty.xlsx"] (Sample.Xlsx [("Sheet1", [])])
              (Some "Sheet1") "Client" "Your Name" Sample.scenario_E
              ltac:(vm_compute; reflexivity))
    as (_ & _ & Hcols).
  apply (Hcols [("Sheet1", [])] "Sheet1");
    [vm_compute; discriminate | reflexivity..].
Defined.


Lemma extract_named_sheet_narrows_witness :
  ["Java"; "Python"; "SQL"] ⊆ ["Java"; "Python"; "Rust; Go"; "SQL"].
Proof.
  apply (extract_named_sheet_narrows Sample.parse_workbook plain_order
           ["client.xlsx"] "October" Sample.two_sheets);
    vm_compute; reflexivity.
Defined.
